(** * mergemate: the branch tab (ui/tabs/branch.go)

    A shallow embedding of the branch table / target picker controller:
    the title policy [shortenTitle], the asynchronous command built by
    [createMergeRequest], and the [Update] loop of [BranchTable] together
    with [changeBranchSelectionVisibility], [recalculateComponents],
    [tableSize] and [contentSize].

    Go strings are byte strings: [len], slicing and [strings.IndexByte]
    all count bytes.  They are modelled by [string], whose characters are
    the 256 values of [ascii]; every length below is a length in bytes.
    Go's [int] is modelled by [Z]. *)

From Stdlib Require Import ZArith Ascii String Bool Lia.
From stdpp Require Import base option list strings gmap.

Local Open Scope string_scope.
Local Open Scope Z_scope.

(** ** Results of code that may panic *)

Inductive result (A : Type) : Type :=
| Ok (a : A)
| Panic.
Arguments Ok {A} a.
Arguments Panic {A}.

Definition rbind {A B : Type} (r : result A) (k : A -> result B) : result B :=
  match r with
  | Ok a => k a
  | Panic => Panic
  end.

Notation "'let!' x ':=' r 'in' k" := (rbind r (fun x => k))
  (at level 10, x name, r at level 100, k at level 200, only parsing).

(** ** Go strings *)

Module GoString.

(** [strings.IndexByte]: index of the first occurrence of [c], or -1. *)
Fixpoint IndexByte (s : string) (c : ascii) : Z :=
  match s with
  | EmptyString => -1
  | String a rest =>
      if Ascii.eqb a c then 0
      else let i := IndexByte rest c in
           if i =? -1 then -1 else i + 1
  end.

(** [len(s)]. *)
Definition len (s : string) : Z := Z.of_nat (String.length s).

(** [s[:n]] for [0 <= n <= len(s)]; Go panics outside that range, and
    [slice_in_range] below shows that the two uses in [shortenTitle]
    stay inside it. *)
Fixpoint slice_to (s : string) (n : nat) : string :=
  match n, s with
  | O, _ => EmptyString
  | S _, EmptyString => EmptyString
  | S n', String a rest => String a (slice_to rest n')
  end.

(** The byte [c] does not occur in [s]. *)
Fixpoint free_of (c : ascii) (s : string) : Prop :=
  match s with
  | EmptyString => True
  | String a rest => a <> c /\ free_of c rest
  end.

(** A string of [n] copies of the byte [c]. *)
Fixpoint replicate (n : nat) (c : ascii) : string :=
  match n with
  | O => EmptyString
  | S n' => String c (replicate n' c)
  end.

(** [sub] occurs in [s]. *)
Definition contains (s sub : string) : Prop :=
  exists pre post : string, s = pre +:+ sub +:+ post.

End GoString.
Import GoString.

Definition newline : ascii := Ascii.ascii_of_nat 10.

(** ** The title policy *)

Definition shortenTitle (title : string) : string :=
  let idx := IndexByte title newline in
  let title := if negb (idx =? -1) then slice_to title (Z.to_nat idx) else title in
  if len title >? 255 then slice_to title 250 +:+ "..."
  else title.

(** The first line of a title: the whole title when it has no line break,
    else what stands before the first one. *)
Inductive first_line (title : string) : string -> Prop :=
| first_line_whole :
    free_of newline title ->
    first_line title title
| first_line_cut (line rest : string) :
    free_of newline line ->
    title = line +:+ String newline rest ->
    first_line title line.

(** The title policy with its limits counted in bytes: keep the first
    line; when that line is longer than 255 bytes keep its first 250 bytes
    and append the ellipsis marker. *)
Inductive title_policy (title : string) : string -> Prop :=
| policy_short (line : string) :
    first_line title line ->
    len line <= 255 ->
    title_policy title line
| policy_long (line : string) :
    first_line title line ->
    255 < len line ->
    title_policy title (slice_to line 250 +:+ "...").

(** *** Characters

    A title is UTF-8 text, in which a character takes one to four bytes:
    a leading byte followed by continuation bytes, the bytes from 128 to
    191. *)

Definition is_continuation (a : ascii) : bool :=
  let n := Z.of_nat (nat_of_ascii a) in
  (128 <=? n) && (n <? 192).

(** The number of characters: the bytes that are not continuation bytes. *)
Fixpoint chars (s : string) : Z :=
  match s with
  | EmptyString => 0
  | String a rest => (if is_continuation a then 0 else 1) + chars rest
  end.

(** The first [n] characters, each with its continuation bytes. *)
Fixpoint take_chars (n : nat) (s : string) : string :=
  match s with
  | EmptyString => EmptyString
  | String a rest =>
      if is_continuation a then String a (take_chars n rest)
      else match n with
           | O => EmptyString
           | S n' => String a (take_chars n' rest)
           end
  end.

(** The title policy as the specification words it, with its limits
    counted in characters: keep the first line; when that line is longer
    than 255 characters keep its first 250 characters and append the
    ellipsis marker. *)
Inductive title_policy_in_characters (title : string) : string -> Prop :=
| characters_short (line : string) :
    first_line title line ->
    chars line <= 255 ->
    title_policy_in_characters title line
| characters_long (line : string) :
    first_line title line ->
    255 < chars line ->
    title_policy_in_characters title (take_chars 250 line +:+ "...").

(** Every byte is below 128: each character is one byte. *)
Fixpoint ascii_only (s : string) : Prop :=
  match s with
  | EmptyString => True
  | String a rest => Z.of_nat (nat_of_ascii a) < 128 /\ ascii_only rest
  end.

(** [n] copies of the string [unit]. *)
Fixpoint repeat_string (n : nat) (unit : string) : string :=
  match n with
  | O => EmptyString
  | S n' => unit +:+ repeat_string n' unit
  end.

(** The letter e with an acute accent: one character, the two bytes 195
    and 169. *)
Definition e_acute : string :=
  String (Ascii.ascii_of_nat 195) (String (Ascii.ascii_of_nat 169) EmptyString).

(** A title of 300 accented letters (600 bytes), and one of 128 accented
    letters and an "a" (129 characters, 257 bytes). *)
Definition accented300 : string := repeat_string 300 e_acute.
Definition accented129 : string := repeat_string 128 e_acute +:+ "a".

(** ** The source-control client (pkg/gitlab) *)

Module gitlab.

Record Commit := {
  Message : string;
  AuthoredDate : Z  (* an instant; only ever formatted for display *)
}.

Record Branch := {
  Name : string;
  Default : bool;
  Commit_ : Commit
}.

(** Modelled from the spec: the record of a created merge request
    ("id + metadata"); [Iid] is the only field this file reads. *)
Record MergeRequestDetails := {
  Iid : Z;
  Metadata : string
}.

(** Go [error] values as this file can observe them: the sentinel
    [MergeRequestAlreadyExists], an error implementing [net.Error], any
    other leaf, a wrapper ([fmt.Errorf] with [%w]) and a join
    ([errors.Join]). *)
Inductive error : Type :=
| MergeRequestAlreadyExists
| NetError (text : string)
| OtherError (text : string)
| Wrapped (text : string) (inner : error)
| Joined (e1 e2 : error).

(** [err.Error()]. *)
Fixpoint Error (e : error) : string :=
  match e with
  | MergeRequestAlreadyExists => "merge request already exists"
  | NetError text => text
  | OtherError text => text
  | Wrapped text _ => text
  | Joined e1 e2 => Error e1 +:+ String (Ascii.ascii_of_nat 10) (Error e2)
  end.

(** [errors.Is(e, MergeRequestAlreadyExists)] on a non-nil [e]. *)
Fixpoint is_already_exists (e : error) : bool :=
  match e with
  | MergeRequestAlreadyExists => true
  | NetError _ | OtherError _ => false
  | Wrapped _ inner => is_already_exists inner
  | Joined e1 e2 => is_already_exists e1 || is_already_exists e2
  end.

(** [errors.As(e, new(net.Error))] on a non-nil [e]. *)
Fixpoint as_net_error (e : error) : bool :=
  match e with
  | NetError _ => true
  | MergeRequestAlreadyExists | OtherError _ => false
  | Wrapped _ inner => as_net_error inner
  | Joined e1 e2 => as_net_error e1 || as_net_error e2
  end.

(** The three calls of the client this file makes.  A Go call returning
    a pointer and an error may leave either of them nil. *)
Record Client := {
  FetchBranchesWithPattern : list string -> list Branch;
  CreateMergeRequest :
    string -> string -> string -> option MergeRequestDetails * option error;
  CreateMergeRequestNote : Z -> string -> option error
}.

End gitlab.

(** [errors.Is] and [errors.As] accept a nil error and answer false. *)
Definition errors_Is_AlreadyExists (err : option gitlab.error) : bool :=
  match err with
  | Some e => gitlab.is_already_exists e
  | None => false
  end.

Definition errors_As_net_Error (err : option gitlab.error) : bool :=
  match err with
  | Some e => gitlab.as_net_error e
  | None => false
  end.

(** ** Messages and commands of the event loop *)

(** [tea.Msg] values this tab can receive or produce. *)
Inductive Msg : Type :=
| UserBranches (branches : list gitlab.Branch)
| TargetBranches (Branches : list gitlab.Branch)
| UpdatedContextMessage
| KeyMsg (key : string)                 (* carries the result of [String()] *)
| MergeRequestCreated (mergeRequest : gitlab.MergeRequestDetails)
| MergeRequestFailed (text : string)
| OtherMsg (tag : nat).

(** Modelled from the spec: [failed] is defined in another file of the
    package; it builds the "merge request failed" notification, which
    "carries a short human-readable message". *)
Definition failed (text : string) : Msg := MergeRequestFailed text.

(** [tea.Cmd] values this tab issues. *)
Inductive Cmd : Type :=
| CreateMergeRequestCmd (sourceBranch targetBranch title : string)
| ListUsersBranchesCmd
| WidgetCmd (tag : nat).

(** What running a command leaves behind: the texts written through
    [log.Printf], one entry per call (an entry spans several lines when
    the error's text does), and the message returned ([None] is Go's nil
    message, which the event loop drops). *)
Record Outcome := {
  logged : list string;
  returned : result (option Msg)
}.

(** ** The asynchronous command of [createMergeRequest]

    [run_createMergeRequest client note s t title] is the body of the
    closure returned by [createMergeRequest s t title]; [note] is the
    package constant [MergeAutomatically] passed as the note's body. *)
Definition run_createMergeRequest (client : gitlab.Client) (note : string)
    (sourceBranch targetBranch title : string) : Outcome :=
  let title := shortenTitle title in
  let '(mergeRequest, err) :=
    gitlab.CreateMergeRequest client sourceBranch targetBranch title in
  if errors_Is_AlreadyExists err then
    {| logged := [];
       returned := Ok (Some (failed
         ("merge request from branch " +:+ sourceBranch +:+ " already exists"))) |}
  else if errors_As_net_Error err then
    {| logged := [];
       returned := Ok (Some (failed
         "merge request creation failed, please check your network connection")) |}
  else
    match err with
    | Some e =>
        {| logged := ["Error when creating merge request " +:+ gitlab.Error e];
           returned := Ok (Some (failed
             "unrecognized error when creating merge request, please check log file")) |}
    | None =>
        match mergeRequest with
        | None => {| logged := []; returned := Panic |}  (* nil dereference *)
        | Some mr =>
            match gitlab.CreateMergeRequestNote client (gitlab.Iid mr) note with
            | Some e =>
                {| logged :=
                     ["Error when marking merge request to be merged automatically "
                        +:+ gitlab.Error e];
                   returned := Ok None |}
            | None =>
                {| logged := []; returned := Ok (Some (MergeRequestCreated mr)) |}
            end
        end
    end.

(** ** Go slices and integers *)

(** [l[i]]: Go panics when the index is out of range. *)
Definition go_index {A : Type} (l : list A) (i : Z) : result A :=
  if i <? 0 then Panic
  else match l !! Z.to_nat i with
       | Some x => Ok x
       | None => Panic
       end.

(** Arithmetic on Go's 64-bit [int] wraps around. *)
Definition wrap_int (z : Z) : Z := (z + 2 ^ 63) mod 2 ^ 64 - 2 ^ 63.

(** ** Key bindings (bubbles/key) *)

Module bubbles_key.

(** A binding: its keys ([None] is a nil slice) and its disabled flag. *)
Record Binding := {
  keys : option (list string);
  disabled : bool
}.

Definition SetEnabled (v : bool) (b : Binding) : Binding :=
  {| keys := keys b; disabled := negb v |}.

Definition Enabled (b : Binding) : bool :=
  negb (disabled b) && match keys b with Some _ => true | None => false end.

(** [key.Matches(msg, b)], with [k] the key message's [String()]. *)
Definition Matches (k : string) (b : Binding) : bool :=
  existsb (fun v => String.eqb k v && Enabled b) (default [] (keys b)).

End bubbles_key.

Module keys.

Record BranchKeyMap := {
  MergeAutomatically : bubbles_key.Binding;
  CloseTargetBranchesList : bubbles_key.Binding;
  SelectTargetBranch : bubbles_key.Binding;
  MergeFavourite : list bubbles_key.Binding
}.

End keys.

(** ** The branch table widget (bubble-table), as far as this tab drives it *)

Module bubble_table.

(** A cell value of [table.RowData], a map from column key to [interface{}]. *)
Inductive any : Type :=
| AnyString (s : string)
| AnyBranch (b : gitlab.Branch).

Record Row := { Data : gmap string any }.

Definition NewRow (data : gmap string any) : Row := {| Data := data |}.

Record Model := {
  rows : list Row;
  rowCursorIndex : Z;
  currentPage : Z;
  pageSize : Z;
  targetTotalWidth : Z
}.

Definition MaxPages (m : Model) : Z :=
  let totalRows := Z.of_nat (length (rows m)) in
  if (pageSize m =? 0) || (totalRows <? 1) then 1
  else Z.quot (totalRows - 1) (pageSize m) + 1.

Definition pageLast (m : Model) : Model :=
  let page := MaxPages m - 1 in
  {| rows := rows m; rowCursorIndex := page * pageSize m; currentPage := page;
     pageSize := pageSize m; targetTotalWidth := targetTotalWidth m |}.

Definition WithRows (rs : list Row) (m : Model) : Model :=
  let n := Z.of_nat (length rs) in
  let cursor := if rowCursorIndex m >=? n then n - 1 else rowCursorIndex m in
  let cursor := if cursor <? 0 then 0 else cursor in
  let m := {| rows := rs; rowCursorIndex := cursor; currentPage := currentPage m;
              pageSize := pageSize m; targetTotalWidth := targetTotalWidth m |} in
  if negb (pageSize m =? 0) && (MaxPages m <=? currentPage m) then pageLast m else m.

Definition PageFirst (m : Model) : Model :=
  {| rows := rows m; rowCursorIndex := 0; currentPage := 0;
     pageSize := pageSize m; targetTotalWidth := targetTotalWidth m |}.

Definition WithTargetWidth (w : Z) (m : Model) : Model :=
  {| rows := rows m; rowCursorIndex := rowCursorIndex m; currentPage := currentPage m;
     pageSize := pageSize m; targetTotalWidth := w |}.

Definition WithPageSize (n : Z) (m : Model) : Model :=
  let m := {| rows := rows m; rowCursorIndex := rowCursorIndex m;
              currentPage := currentPage m; pageSize := n;
              targetTotalWidth := targetTotalWidth m |} in
  if currentPage m >=? MaxPages m then
    {| rows := rows m; rowCursorIndex := rowCursorIndex m;
       currentPage := MaxPages m - 1; pageSize := pageSize m;
       targetTotalWidth := targetTotalWidth m |}
  else m.

(** The row under the cursor, or the zero [Row] (nil [Data]) when the
    table has no rows. *)
Definition HighlightedRow (m : Model) : result Row :=
  if 0 <? Z.of_nat (length (rows m)) then go_index (rows m) (rowCursorIndex m)
  else Ok {| Data := ∅ |}.

End bubble_table.

(** ** The target picker's items *)

Record branchItem := { name : string }.

Definition Title (i : branchItem) : string := name i.
Definition Description (i : branchItem) : string := name i.
Definition FilterValue (i : branchItem) : string := name i.

(** ** The selection list widget (bubbles/list), as far as this tab drives it *)

Module bubbles_list.

Inductive FilterState : Type := Unfiltered | Filtering | FilterApplied.

Definition FilterState_eqb (a b : FilterState) : bool :=
  match a, b with
  | Unfiltered, Unfiltered | Filtering, Filtering | FilterApplied, FilterApplied => true
  | _, _ => false
  end.

Record Model := {
  items : list branchItem;
  filteredItems : list branchItem;
  filterState : FilterState;
  filterInput : string;
  index : Z;
  width : Z;
  height : Z
}.

Definition VisibleItems (m : Model) : list branchItem :=
  if FilterState_eqb (filterState m) Unfiltered then items m else filteredItems m.

(** The item under the cursor; [None] is the nil [list.Item]. *)
Definition SelectedItem (m : Model) : option branchItem :=
  let i := index m in
  let visible := VisibleItems m in
  let n := Z.of_nat (length visible) in
  if (i <? 0) || (n =? 0) || (n <=? i) then None
  else visible !! Z.to_nat i.

(** The refiltering command that [SetItems] returns is dropped by the
    caller, so only the state change is kept. *)
Definition SetItems (i : list branchItem) (m : Model) : Model :=
  {| items := i;
     filteredItems :=
       if FilterState_eqb (filterState m) Unfiltered then filteredItems m else [];
     filterState := filterState m; filterInput := filterInput m;
     index := index m; width := width m; height := height m |}.

Definition ResetFilter (m : Model) : Model :=
  if FilterState_eqb (filterState m) Unfiltered then m
  else {| items := items m; filteredItems := []; filterState := Unfiltered;
          filterInput := ""; index := index m; width := width m;
          height := height m |}.

Definition ResetSelected (m : Model) : Model :=
  {| items := items m; filteredItems := filteredItems m;
     filterState := filterState m; filterInput := filterInput m;
     index := 0; width := width m; height := height m |}.

Definition SetWidth (v : Z) (m : Model) : Model :=
  {| items := items m; filteredItems := filteredItems m;
     filterState := filterState m; filterInput := filterInput m;
     index := index m; width := v; height := height m |}.

Definition SetHeight (v : Z) (m : Model) : Model :=
  {| items := items m; filteredItems := filteredItems m;
     filterState := filterState m; filterInput := filterInput m;
     index := index m; width := width m; height := v |}.

End bubbles_list.

(** ** The shared application context (ui/context) *)

Module context.

Record AppContext := {
  GitlabClient : gitlab.Client;
  UserBranchPrefix : string;
  FavouriteBranches : list string;
  TablePageSize : Z;
  TableContentHeight : Z;
  WindowWidth : Z;
  (* Styles.Tabs.Content.GetHorizontalFrameSize() *)
  HorizontalFrameSize : Z
}.

End context.

(** ** The tab *)

Definition columnKeyBranchName : string := "branchName".
Definition columnKeyLastCommit : string := "lastCommit".
Definition columnKeyBranchMetadata : string := "branchDetails".

Record BranchTable := {
  branchesList : bubbles_list.Model;
  flexTable : bubble_table.Model;
  keys : keys.BranchKeyMap;
  context : context.AppContext;
  showMergeTargets : bool
}.

(** What lies outside this file and is taken as given: the local-time
    rendering of a commit date, the conversion [int(float64(c) * 0.7)],
    the two widgets' own [Update] functions, and the package constant
    [MergeAutomatically] (the body of the note). *)
Record External := {
  formatLastCommit : Z -> string;
  scaleWidth : Z -> Z;
  table_Update : bubble_table.Model -> Msg -> bubble_table.Model * option Cmd;
  list_Update : bubbles_list.Model -> Msg -> bubbles_list.Model * option Cmd;
  MergeAutomatically : string
}.

(** [x.(gitlab.Branch)] on a map lookup: panics on a missing key (a nil
    interface) and on a value of another type. *)
Definition assert_Branch (v : option bubble_table.any) : result gitlab.Branch :=
  match v with
  | Some (bubble_table.AnyBranch b) => Ok b
  | _ => Panic
  end.

(** [x.(branchItem)]: panics on the nil item. *)
Definition assert_branchItem (v : option branchItem) : result branchItem :=
  match v with
  | Some i => Ok i
  | None => Panic
  end.

(** [tea.Batch]: the commands that are not nil. *)
Definition Batch (cmds : list (option Cmd)) : list Cmd := omap id cmds.

Definition Init : list Cmd := Batch [Some ListUsersBranchesCmd].

Definition contentSize (m : BranchTable) : Z :=
  wrap_int (context.WindowWidth (context m) - context.HorizontalFrameSize (context m)).

Section Tab.

Variable ext : External.

Definition tableSize (m : BranchTable) : Z :=
  let contentSize := contentSize m in
  if showMergeTargets m then scaleWidth ext contentSize
  else contentSize.

Definition recalculateComponents (m : BranchTable) : BranchTable :=
  let tableWidth := tableSize m in
  let flexTable1 := bubble_table.WithTargetWidth tableWidth (flexTable m) in
  let v := wrap_int (contentSize m - tableWidth) in
  let list1 := bubbles_list.SetWidth v (branchesList m) in
  let list2 :=
    bubbles_list.SetHeight (context.TableContentHeight (context m)) list1 in
  let flexTable2 :=
    bubble_table.WithPageSize (context.TablePageSize (context m)) flexTable1 in
  {| branchesList := list2; flexTable := flexTable2; keys := keys m;
     context := context m; showMergeTargets := showMergeTargets m |}.

Definition changeBranchSelectionVisibility (visible : bool) (m : BranchTable)
    : BranchTable :=
  let k := keys m in
  let close := bubbles_key.SetEnabled visible (keys.CloseTargetBranchesList k) in
  let select := bubbles_key.SetEnabled visible (keys.SelectTargetBranch k) in
  let auto := bubbles_key.SetEnabled (negb visible) (keys.MergeAutomatically k) in
  let m1 :=
    {| branchesList := branchesList m; flexTable := flexTable m;
       keys := {| keys.MergeAutomatically := auto;
                  keys.CloseTargetBranchesList := close;
                  keys.SelectTargetBranch := select;
                  keys.MergeFavourite := keys.MergeFavourite k |};
       context := context m; showMergeTargets := visible |} in
  let m2 := recalculateComponents m1 in
  let list3 := bubbles_list.ResetSelected (bubbles_list.ResetFilter (branchesList m2)) in
  {| branchesList := list3; flexTable := flexTable m2;
     keys := {| keys.MergeAutomatically := keys.MergeAutomatically (keys m2);
                keys.CloseTargetBranchesList := keys.CloseTargetBranchesList (keys m2);
                keys.SelectTargetBranch := keys.SelectTargetBranch (keys m2);
                keys.MergeFavourite :=
                  map (bubbles_key.SetEnabled (negb visible))
                      (keys.MergeFavourite (keys m2)) |};
     context := context m2; showMergeTargets := showMergeTargets m2 |}.

(** The loop of the [UserBranches] case: one row appended per branch. *)
Fixpoint userBranchRows (branches : list gitlab.Branch)
    (rows : list bubble_table.Row) : list bubble_table.Row :=
  match branches with
  | [] => rows
  | branch :: rest =>
      userBranchRows rest
        (rows ++ [bubble_table.NewRow
           (<[columnKeyBranchName := bubble_table.AnyString (gitlab.Name branch)]>
            (<[columnKeyLastCommit :=
                 bubble_table.AnyString
                   (formatLastCommit ext
                      (gitlab.AuthoredDate (gitlab.Commit_ branch)))]>
             (<[columnKeyBranchMetadata := bubble_table.AnyBranch branch]> ∅)))])
  end.

(** The loop of the [TargetBranches] case: a default branch is put in
    front of the items built so far, any other branch behind them. *)
Fixpoint targetBranchItems (branches : list gitlab.Branch)
    (targetBranches : list branchItem) : list branchItem :=
  match branches with
  | [] => targetBranches
  | branch :: rest =>
      let item := {| name := gitlab.Name branch |} in
      if gitlab.Default branch
      then targetBranchItems rest ([item] ++ targetBranches)
      else targetBranchItems rest (targetBranches ++ [item])
  end.

(** The highlighted row's branch: [HighlightedRow().Data[...].(gitlab.Branch)]. *)
Definition highlightedBranch (m : BranchTable) : result gitlab.Branch :=
  let! row := bubble_table.HighlightedRow (flexTable m) in
  assert_Branch (bubble_table.Data row !! columnKeyBranchMetadata).

(** The loop over [m.keys.MergeFavourite] in the default key case;
    [i] is the index of the head of [bindings]. *)
Fixpoint mergeFavouriteLoop (m : BranchTable) (k : string) (i : Z)
    (bindings : list bubbles_key.Binding) (cmds : list (option Cmd))
    : result (list (option Cmd)) :=
  match bindings with
  | [] => Ok cmds
  | binding :: rest =>
      if bubbles_key.Matches k binding && negb (showMergeTargets m) then
        let! sourceBranch := highlightedBranch m in
        let! favourite := go_index (context.FavouriteBranches (context m)) i in
        mergeFavouriteLoop m k (i + 1) rest
          (cmds ++ [Some (CreateMergeRequestCmd (gitlab.Name sourceBranch) favourite
                            (gitlab.Message (gitlab.Commit_ sourceBranch)))])
      else mergeFavouriteLoop m k (i + 1) rest cmds
  end.

Definition notFiltering (m : BranchTable) : bool :=
  negb (bubbles_list.FilterState_eqb
          (bubbles_list.filterState (branchesList m)) bubbles_list.Filtering).

(** The [tea.KeyMsg] case of [Update]'s switch. *)
Definition handleKey (m : BranchTable) (k : string)
    : result (BranchTable * list (option Cmd)) :=
  if bubbles_key.Matches k (keys.MergeAutomatically (keys m)) then
    if negb (showMergeTargets m)
    then Ok (changeBranchSelectionVisibility true m, [])
    else Ok (m, [])
  else if bubbles_key.Matches k (keys.CloseTargetBranchesList (keys m)) then
    if showMergeTargets m && notFiltering m
    then Ok (changeBranchSelectionVisibility false m, [])
    else Ok (m, [])
  else if bubbles_key.Matches k (keys.SelectTargetBranch (keys m)) then
    if showMergeTargets m && notFiltering m then
      let! sourceBranch := highlightedBranch m in
      let! targetBranch :=
        assert_branchItem (bubbles_list.SelectedItem (branchesList m)) in
      Ok (changeBranchSelectionVisibility false m,
          [Some (CreateMergeRequestCmd (gitlab.Name sourceBranch) (name targetBranch)
                   (gitlab.Message (gitlab.Commit_ sourceBranch)))])
    else Ok (m, [])
  else
    let! cmds := mergeFavouriteLoop m k 0 (keys.MergeFavourite (keys m)) [] in
    Ok (m, cmds).

(** [Update]'s switch on the message type. *)
Definition dispatch (m : BranchTable) (msg : Msg)
    : result (BranchTable * list (option Cmd)) :=
  match msg with
  | UserBranches branches =>
      let rows := userBranchRows branches [] in
      let t := bubble_table.PageFirst (bubble_table.WithRows rows (flexTable m)) in
      Ok ({| branchesList := branchesList m; flexTable := t; keys := keys m;
             context := context m; showMergeTargets := showMergeTargets m |}, [])
  | TargetBranches branches =>
      let targetBranches := targetBranchItems branches [] in
      Ok ({| branchesList := bubbles_list.SetItems targetBranches (branchesList m);
             flexTable := flexTable m; keys := keys m;
             context := context m; showMergeTargets := showMergeTargets m |}, [])
  | UpdatedContextMessage => Ok (recalculateComponents m, [])
  | KeyMsg k => handleKey m k
  | _ => Ok (m, [])
  end.

(** [Update]: the switch, then the message is handed to the widget that
    is in front, and the commands are batched. *)
Definition Update (m : BranchTable) (msg : Msg) : result (BranchTable * list Cmd) :=
  let! r := dispatch m msg in
  let '(m, cmds) := r in
  if negb (showMergeTargets m) then
    let '(t, cmd) := table_Update ext (flexTable m) msg in
    Ok ({| branchesList := branchesList m; flexTable := t; keys := keys m;
           context := context m; showMergeTargets := showMergeTargets m |},
        Batch (cmds ++ [cmd]))
  else
    let '(l, cmd) := list_Update ext (branchesList m) msg in
    Ok ({| branchesList := l; flexTable := flexTable m; keys := keys m;
           context := context m; showMergeTargets := showMergeTargets m |},
        Batch (cmds ++ [cmd])).

(** Running a command of this tab against the context's client. *)
Definition run (m : BranchTable) (c : Cmd) : option Outcome :=
  match c with
  | CreateMergeRequestCmd s t title =>
      Some (run_createMergeRequest (context.GitlabClient (context m))
              (MergeAutomatically ext) s t title)
  | ListUsersBranchesCmd =>
      Some {| logged := [];
              returned := Ok (Some (UserBranches
                (gitlab.FetchBranchesWithPattern (context.GitlabClient (context m))
                   [context.UserBranchPrefix (context m)]))) |}
  | WidgetCmd _ => None
  end.

End Tab.

(** ** Vocabulary of the statements *)

(** The picker item of a branch. *)
Definition item_of (b : gitlab.Branch) : branchItem := {| name := gitlab.Name b |}.

Definition is_default (b : gitlab.Branch) : bool := gitlab.Default b.
Definition not_default (b : gitlab.Branch) : bool := negb (gitlab.Default b).

(** The row built for one branch. *)
Definition row_of (ext : External) (branch : gitlab.Branch) : bubble_table.Row :=
  bubble_table.NewRow
    (<[columnKeyBranchName := bubble_table.AnyString (gitlab.Name branch)]>
     (<[columnKeyLastCommit :=
          bubble_table.AnyString
            (formatLastCommit ext (gitlab.AuthoredDate (gitlab.Commit_ branch)))]>
      (<[columnKeyBranchMetadata := bubble_table.AnyBranch branch]> ∅))).

(** ** Concrete data for the examples below *)

Module Sample.

Definition binding (key : string) (enabled : bool) : bubbles_key.Binding :=
  {| bubbles_key.keys := Some [key]; bubbles_key.disabled := negb enabled |}.

(** The key map as it stands while browsing. *)
Definition browsingKeys : keys.BranchKeyMap :=
  {| keys.MergeAutomatically := binding "m" true;
     keys.CloseTargetBranchesList := binding "esc" false;
     keys.SelectTargetBranch := binding "enter" false;
     keys.MergeFavourite := [binding "1" true; binding "2" true] |}.

Definition created : gitlab.MergeRequestDetails :=
  {| gitlab.Iid := 7; gitlab.Metadata := "feature/x into main" |}.

Definition branch (name : string) (default : bool) : gitlab.Branch :=
  {| gitlab.Name := name; gitlab.Default := default;
     gitlab.Commit_ := {| gitlab.Message := "fix bug"; gitlab.AuthoredDate := 0 |} |}.

(** A client whose creation call succeeds and whose note call fails. *)
Definition noteFails : gitlab.Client :=
  {| gitlab.FetchBranchesWithPattern := fun _ => [];
     gitlab.CreateMergeRequest := fun _ _ _ => (Some created, None);
     gitlab.CreateMergeRequestNote :=
       fun _ _ => Some (gitlab.OtherError "note refused") |}.

(** A client whose creation call fails with [err]. *)
Definition creationFails (err : gitlab.error) : gitlab.Client :=
  {| gitlab.FetchBranchesWithPattern := fun _ => [];
     gitlab.CreateMergeRequest := fun _ _ _ => (None, Some err);
     gitlab.CreateMergeRequestNote := fun _ _ => None |}.

Definition appContext : context.AppContext :=
  {| context.GitlabClient := noteFails;
     context.UserBranchPrefix := "user/";
     context.FavouriteBranches := ["main"; "develop"];
     context.TablePageSize := 10;
     context.TableContentHeight := 20;
     context.WindowWidth := 100;
     context.HorizontalFrameSize := 4 |}.

Definition emptyTable : bubble_table.Model :=
  {| bubble_table.rows := []; bubble_table.rowCursorIndex := 0;
     bubble_table.currentPage := 0; bubble_table.pageSize := 10;
     bubble_table.targetTotalWidth := 0 |}.

Definition emptyList : bubbles_list.Model :=
  {| bubbles_list.items := []; bubbles_list.filteredItems := [];
     bubbles_list.filterState := bubbles_list.Unfiltered;
     bubbles_list.filterInput := ""; bubbles_list.index := 0;
     bubbles_list.width := 0; bubbles_list.height := 20 |}.

(** Widgets that ignore every message. *)
Definition inert : External :=
  {| formatLastCommit := fun _ => "1970-01-01 00:00:00";
     scaleWidth := fun c => Z.quot (c * 7) 10;
     table_Update := fun t _ => (t, None);
     list_Update := fun l _ => (l, None);
     MergeAutomatically := "merge automatically" |}.

(** The tab as [NewBranchTable] leaves it: no rows, no items, browsing. *)
Definition fresh : BranchTable :=
  {| branchesList := emptyList; flexTable := emptyTable; keys := browsingKeys;
     context := appContext; showMergeTargets := false |}.

(** The tab after the branches and the target branches have arrived. *)
Definition loadedTable : bubble_table.Model :=
  bubble_table.PageFirst
    (bubble_table.WithRows
       (userBranchRows inert [branch "feature/x" false; branch "feature/y" false] [])
       emptyTable).

Definition loadedList : bubbles_list.Model :=
  bubbles_list.SetItems
    (targetBranchItems [branch "develop" false; branch "main" true] []) emptyList.

Definition loaded : BranchTable :=
  {| branchesList := loadedList; flexTable := loadedTable; keys := browsingKeys;
     context := appContext; showMergeTargets := false |}.

(** The same tab with the target picker open. *)
Definition picking : BranchTable := changeBranchSelectionVisibility inert true loaded.

(** The picker opened before any branch arrived. *)
Definition pickingEmpty : BranchTable := changeBranchSelectionVisibility inert true fresh.

End Sample.

(** ** Construction, help and the remaining vocabulary *)

(** [table.New(columns)] followed by [WithRows([]table.Row{})]: no rows,
    no paging, cursor on the first row, no target width. *)
Definition table_New : bubble_table.Model :=
  bubble_table.WithRows []
    {| bubble_table.rows := []; bubble_table.rowCursorIndex := 0;
       bubble_table.currentPage := 0; bubble_table.pageSize := 0;
       bubble_table.targetTotalWidth := 0 |}.

(** [createList]: [list.New] with no items, width 0 and height 20. *)
Definition createList : bubbles_list.Model :=
  {| bubbles_list.items := []; bubbles_list.filteredItems := [];
     bubbles_list.filterState := bubbles_list.Unfiltered;
     bubbles_list.filterInput := ""; bubbles_list.index := 0;
     bubbles_list.width := 0; bubbles_list.height := 20 |}.

(** [NewBranchTable]; [BranchHelp] is [keys.BranchHelp], which builds the
    key map from the favourite branches and lives in another package. *)
Definition NewBranchTable (BranchHelp : list string -> keys.BranchKeyMap)
    (ctx : context.AppContext) : BranchTable :=
  {| flexTable := bubble_table.WithPageSize (context.TablePageSize ctx) table_New;
     branchesList := createList;
     keys := BranchHelp (context.FavouriteBranches ctx);
     context := ctx;
     showMergeTargets := false |}.

(** [FullHelp]: the three fixed bindings, then the favourites. *)
Definition FullHelp (m : BranchTable) : list bubbles_key.Binding :=
  ([keys.MergeAutomatically (keys m);
    keys.CloseTargetBranchesList (keys m);
    keys.SelectTargetBranch (keys m)] ++ keys.MergeFavourite (keys m))%list.

(** The bindings' flags agree with the mode: the browsing bindings are
    disabled exactly while the picker is shown, the picker's bindings
    exactly while it is not. *)
Definition bindings_consistent (m : BranchTable) : Prop :=
  bubbles_key.disabled (keys.MergeAutomatically (keys m)) = showMergeTargets m
  /\ Forall (fun b => bubbles_key.disabled b = showMergeTargets m)
       (keys.MergeFavourite (keys m))
  /\ bubbles_key.disabled (keys.CloseTargetBranchesList (keys m))
     = negb (showMergeTargets m)
  /\ bubbles_key.disabled (keys.SelectTargetBranch (keys m))
     = negb (showMergeTargets m).

(** The creation commands a key press is to issue for the favourites:
    one per favourite binding the key matches, in binding order, each
    aimed at the favourite branch at the binding's position. *)
Definition favourite_requests (m : BranchTable) (k : string)
    (sourceBranch : gitlab.Branch) : list Cmd :=
  map (fun bf : bubbles_key.Binding * string =>
         CreateMergeRequestCmd (gitlab.Name sourceBranch) bf.2
           (gitlab.Message (gitlab.Commit_ sourceBranch)))
      (List.filter (fun bf : bubbles_key.Binding * string => bubbles_key.Matches k bf.1)
         (combine (keys.MergeFavourite (keys m))
                  (context.FavouriteBranches (context m)))).

(** The mode a key press leads to, as the guards of [Update] decide it. *)
Definition next_mode (m : BranchTable) (k : string) : bool :=
  if showMergeTargets m then
    negb (notFiltering m
          && negb (bubbles_key.Matches k (keys.MergeAutomatically (keys m)))
          && (bubbles_key.Matches k (keys.CloseTargetBranchesList (keys m))
              || bubbles_key.Matches k (keys.SelectTargetBranch (keys m))))
  else bubbles_key.Matches k (keys.MergeAutomatically (keys m)).

(** ** More concrete data *)

Module Sample2.

(** The picker open, with the user typing a filter. *)
Definition filtering : BranchTable :=
  {| branchesList :=
       {| bubbles_list.items := bubbles_list.items (branchesList Sample.picking);
          bubbles_list.filteredItems := [];
          bubbles_list.filterState := bubbles_list.Filtering;
          bubbles_list.filterInput := "ma";
          bubbles_list.index := 0;
          bubbles_list.width := bubbles_list.width (branchesList Sample.picking);
          bubbles_list.height := bubbles_list.height (branchesList Sample.picking) |};
     flexTable := flexTable Sample.picking;
     keys := keys Sample.picking;
     context := context Sample.picking;
     showMergeTargets := true |}.

(** A key map whose two favourite bindings share the key "f". *)
Definition sharedKeys : keys.BranchKeyMap :=
  {| keys.MergeAutomatically := Sample.binding "m" true;
     keys.CloseTargetBranchesList := Sample.binding "esc" false;
     keys.SelectTargetBranch := Sample.binding "enter" false;
     keys.MergeFavourite := [Sample.binding "f" true; Sample.binding "f" true] |}.

Definition shared : BranchTable :=
  {| branchesList := Sample.loadedList; flexTable := Sample.loadedTable;
     keys := sharedKeys; context := Sample.appContext; showMergeTargets := false |}.

(** A context that lost its second favourite after the key map was built. *)
Definition oneFavourite : context.AppContext :=
  {| context.GitlabClient := Sample.noteFails;
     context.UserBranchPrefix := "user/";
     context.FavouriteBranches := ["main"];
     context.TablePageSize := 10;
     context.TableContentHeight := 20;
     context.WindowWidth := 100;
     context.HorizontalFrameSize := 4 |}.

Definition shrunk : BranchTable :=
  {| branchesList := Sample.loadedList; flexTable := Sample.loadedTable;
     keys := Sample.browsingKeys; context := oneFavourite;
     showMergeTargets := false |}.

(** A client that returns two branches for the user's prefix. *)
Definition twoBranches : gitlab.Client :=
  {| gitlab.FetchBranchesWithPattern :=
       fun patterns =>
         match patterns with
         | [prefix] =>
             if String.eqb prefix "user/"
             then [Sample.branch "user/a" false; Sample.branch "user/b" false]
             else []
         | _ => []
         end;
     gitlab.CreateMergeRequest := fun _ _ _ => (Some Sample.created, None);
     gitlab.CreateMergeRequestNote := fun _ _ => None |}.

Definition startContext : context.AppContext :=
  {| context.GitlabClient := twoBranches;
     context.UserBranchPrefix := "user/";
     context.FavouriteBranches := ["main"; "develop"];
     context.TablePageSize := 10;
     context.TableContentHeight := 20;
     context.WindowWidth := 100;
     context.HorizontalFrameSize := 4 |}.

End Sample2.

(** * Properties *)

(** ** Strings *)

Lemma append_nil (t : string) : EmptyString +:+ t = t.
Proof. reflexivity. Qed.

Lemma append_cons (a : ascii) (s t : string) :
  String a s +:+ t = String a (s +:+ t).
Proof. reflexivity. Qed.

Lemma IndexByte_lower (s : string) (c : ascii) : -1 <= IndexByte s c.
Proof.
  induction s as [|a rest IH]; simpl; [lia|].
  destruct (Ascii.eqb a c); [lia|].
  destruct (IndexByte rest c =? -1); lia.
Qed.

Lemma IndexByte_absent (s : string) (c : ascii) :
  IndexByte s c = -1 <-> free_of c s.
Proof.
  induction s as [|a rest IH]; simpl; [tauto|].
  destruct (Ascii.eqb_spec a c) as [->|Hne].
  - split; [lia | intros [H _]; congruence].
  - pose proof (IndexByte_lower rest c) as Hlo.
    destruct (Z.eqb_spec (IndexByte rest c) (-1)) as [E|E].
    + split; [intros _; split; [assumption | apply IH, E] | reflexivity].
    + split; [lia | intros [_ H]; apply IH in H; contradiction].
Qed.

(** A found index splits the string around the first occurrence. *)
Lemma IndexByte_found (s : string) (c : ascii) :
  IndexByte s c <> -1 ->
  exists rest : string,
    s = slice_to s (Z.to_nat (IndexByte s c)) +:+ String c rest
    /\ free_of c (slice_to s (Z.to_nat (IndexByte s c)))
    /\ 0 <= IndexByte s c < len s.
Proof.
  unfold len. induction s as [|a tl IH]; simpl; [congruence|].
  destruct (Ascii.eqb_spec a c) as [->|Hne].
  - intros _. exists tl. simpl. repeat split; lia.
  - pose proof (IndexByte_lower tl c) as Hlo.
    destruct (Z.eqb_spec (IndexByte tl c) (-1)) as [E|E]; [congruence|].
    intros _. destruct (IH E) as (rest & Hs & Hfree & Hrange).
    exists rest.
    replace (Z.to_nat (IndexByte tl c + 1)) with (S (Z.to_nat (IndexByte tl c))) by lia.
    simpl. rewrite append_cons. repeat split; try assumption; try lia.
    f_equal. exact Hs.
Qed.

(** Both slices of [shortenTitle] stay within the string. *)
Lemma slice_in_range (title : string) :
  let idx := IndexByte title newline in
  (idx <> -1 -> (0 <= idx) /\ (idx <= len title))
  /\ (forall line : string, (len line >? 255) = true -> 250 <= len line).
Proof.
  split.
  - intros H. destruct (IndexByte_found title newline H) as (_ & _ & _ & ?). lia.
  - intros line H. apply Z.gtb_lt in H. lia.
Qed.

Lemma IndexByte_app_found (line rest : string) (c : ascii) :
  free_of c line ->
  IndexByte (line +:+ String c rest) c = len line.
Proof.
  unfold len. induction line as [|a tl IH];
    rewrite ?append_nil, ?append_cons; simpl.
  - intros _. rewrite Ascii.eqb_refl. reflexivity.
  - intros [Hne Hfree]. destruct (Ascii.eqb_spec a c); [contradiction|].
    rewrite (IH Hfree).
    destruct (Z.eqb_spec (Z.of_nat (String.length tl)) (-1)); lia.
Qed.

Lemma slice_to_app (line rest : string) :
  slice_to (line +:+ rest) (String.length line) = line.
Proof.
  induction line as [|a tl IH]; rewrite ?append_nil, ?append_cons; simpl;
    [destruct rest; reflexivity|].
  f_equal. exact IH.
Qed.

Lemma slice_to_length (s : string) (n : nat) :
  (n <= String.length s)%nat -> String.length (slice_to s n) = n.
Proof.
  revert s. induction n as [|n IH]; intros [|a tl]; simpl; intros H;
    try reflexivity; try lia.
  f_equal. apply IH. lia.
Qed.

Lemma length_append (s t : string) :
  String.length (s +:+ t) = (String.length s + String.length t)%nat.
Proof.
  induction s as [|a tl IH]; rewrite ?append_nil, ?append_cons; simpl;
    [reflexivity | f_equal; exact IH].
Qed.

(** The first line of a title is what [shortenTitle] keeps before it
    looks at the length. *)
Lemma first_line_unique (title line : string) :
  first_line title line <->
  line = (if negb (IndexByte title newline =? -1)
          then slice_to title (Z.to_nat (IndexByte title newline))
          else title).
Proof.
  split.
  - intros [Hfree | l rest Hfree ->].
    + apply IndexByte_absent in Hfree. rewrite Hfree. reflexivity.
    + rewrite (IndexByte_app_found _ _ _ Hfree).
      unfold len. destruct (Z.eqb_spec (Z.of_nat (String.length l)) (-1)); [lia|].
      simpl. rewrite Nat2Z.id. symmetry. apply slice_to_app.
  - intros ->. destruct (Z.eqb_spec (IndexByte title newline) (-1)) as [E|E]; simpl.
    + apply first_line_whole. apply IndexByte_absent, E.
    + destruct (IndexByte_found title newline E) as (rest & Hs & Hfree & _).
      eapply first_line_cut; eassumption.
Qed.

Lemma replicate_free (n : nat) (c d : ascii) : c <> d -> free_of d (replicate n c).
Proof. intros H. induction n; simpl; auto. Qed.

Lemma replicate_length (n : nat) (c : ascii) : String.length (replicate n c) = n.
Proof. induction n; simpl; congruence. Qed.

(** C3, amended: with the limits counted in bytes, [shortenTitle] follows
    the title policy, and its result is the only string the policy allows:
    the title is cut at its first line break if it has one, and a first
    line longer than 255 bytes is replaced by its first 250 bytes followed
    by the ellipsis marker.  A title of 300 bytes without a line break
    comes out as its first 250 bytes and the marker, 253 bytes in all, and
    the title "fix bug", line break, "extra detail" comes out as
    "fix bug". *)
Theorem shortenTitle_policy :
  (forall title out : string, title_policy title out <-> out = shortenTitle title)
  /\ (forall title : string,
        free_of newline title -> len title = 300 ->
        shortenTitle title = slice_to title 250 +:+ "..."
        /\ len (shortenTitle title) = 253)
  /\ shortenTitle (replicate 300 "a") = replicate 250 "a" +:+ "..."
  /\ shortenTitle ("fix bug" +:+ String newline "extra detail") = "fix bug".
Proof.
  split; [|split; [|split]].
  - intros title out. unfold shortenTitle. split.
    + intros [line Hl Hlen | line Hl Hlen]; apply first_line_unique in Hl;
        rewrite <- Hl.
      * destruct (Z.gtb_spec (len line) 255); [lia | reflexivity].
      * destruct (Z.gtb_spec (len line) 255); [reflexivity | lia].
    + intros ->.
      set (line := if negb (IndexByte title newline =? -1)
                   then slice_to title (Z.to_nat (IndexByte title newline))
                   else title).
      assert (Hl : first_line title line) by (apply first_line_unique; reflexivity).
      destruct (Z.gtb_spec (len line) 255).
      * apply policy_long; assumption.
      * apply policy_short; assumption.
  - intros title Hfree Hlen. unfold shortenTitle.
    apply IndexByte_absent in Hfree. rewrite Hfree. simpl negb. cbv iota.
    rewrite Hlen. change (300 >? 255) with true. cbv iota.
    split; [reflexivity|].
    unfold len in *. rewrite length_append, slice_to_length by lia.
    simpl. lia.
  - vm_compute. reflexivity.
  - vm_compute. reflexivity.
Qed.

(** The policy at the two inputs the specification names. *)
Lemma shortenTitle_policy_witness :
  title_policy ("fix bug" +:+ String newline "extra detail") "fix bug"
  /\ len (shortenTitle (replicate 300 "a")) = 253.
Proof.
  split.
  - apply (proj1 shortenTitle_policy). vm_compute. reflexivity.
  - apply (proj1 (proj2 shortenTitle_policy) (replicate 300 "a")).
    + apply replicate_free. discriminate.
    + unfold len. rewrite replicate_length. reflexivity.
Defined.

(** A first line of a title without a line break is the title. *)
Lemma first_line_of_free (title line : string) :
  free_of newline title -> first_line title line -> line = title.
Proof.
  intros Hfree Hline. apply first_line_unique in Hline.
  apply IndexByte_absent in Hfree. rewrite Hfree in Hline. exact Hline.
Qed.

(** Two strings said to be equal have different lengths. *)
Ltac differ_in_length :=
  match goal with
  | H : @eq string _ _ |- _ =>
      apply (f_equal len) in H; vm_compute in H; discriminate
  end.

(** C3, as stated, fails: the limits are bytes, not characters.  A title
    of 300 accented letters is cut to its first 250 bytes, which are 125
    letters, and not to its first 250 letters: with the marker the result
    has 128 characters.  A title of 129 characters that takes 257 bytes is
    cut although it is not longer than 255 characters. *)
Lemma title_limits_are_bytes :
  free_of newline accented300
  /\ chars accented300 = 300
  /\ ~ title_policy_in_characters accented300 (shortenTitle accented300)
  /\ shortenTitle accented300 = repeat_string 125 e_acute +:+ "..."
  /\ chars (shortenTitle accented300) = 128
  /\ free_of newline accented129
  /\ chars accented129 = 129
  /\ ~ title_policy_in_characters accented129 (shortenTitle accented129)
  /\ shortenTitle accented129 <> accented129.
Proof.
  assert (Hfree300 : free_of newline accented300)
    by (apply IndexByte_absent; vm_compute; reflexivity).
  assert (Hfree129 : free_of newline accented129)
    by (apply IndexByte_absent; vm_compute; reflexivity).
  assert (Hchars300 : chars accented300 = 300) by (vm_compute; reflexivity).
  assert (Hchars129 : chars accented129 = 129) by (vm_compute; reflexivity).
  split; [exact Hfree300|]. split; [exact Hchars300|]. split.
  { intros Hpolicy.
    inversion Hpolicy as [line Hline Hlen Hout | line Hline Hlen Hout];
      apply (first_line_of_free _ _ Hfree300) in Hline; subst line;
      first [lia | differ_in_length]. }
  split; [vm_compute; reflexivity|]. split; [vm_compute; reflexivity|].
  split; [exact Hfree129|]. split; [exact Hchars129|]. split.
  { intros Hpolicy.
    inversion Hpolicy as [line Hline Hlen Hout | line Hline Hlen Hout];
      apply (first_line_of_free _ _ Hfree129) in Hline; subst line;
      first [lia | differ_in_length]. }
  intros Heq. apply (f_equal len) in Heq. vm_compute in Heq. discriminate.
Qed.

Lemma chars_ascii (s : string) : ascii_only s -> chars s = len s.
Proof.
  unfold len. induction s as [|a rest IH]; simpl chars; simpl ascii_only.
  - reflexivity.
  - intros [Ha Hrest]. unfold is_continuation.
    destruct (Z.leb_spec 128 (Z.of_nat (nat_of_ascii a))); [lia|].
    simpl andb. cbv iota. rewrite (IH Hrest). simpl String.length. lia.
Qed.

Lemma take_chars_ascii (s : string) (n : nat) :
  ascii_only s -> take_chars n s = slice_to s n.
Proof.
  revert n. induction s as [|a rest IH]; intros n; simpl take_chars; simpl ascii_only.
  - destruct n; reflexivity.
  - intros [Ha Hrest]. unfold is_continuation.
    destruct (Z.leb_spec 128 (Z.of_nat (nat_of_ascii a))); [lia|].
    simpl andb. cbv iota. destruct n as [|n]; simpl; [reflexivity|].
    rewrite (IH n Hrest). reflexivity.
Qed.

Lemma ascii_only_first_line (title line : string) :
  ascii_only title -> first_line title line -> ascii_only line.
Proof.
  intros Htitle [Hfree | l rest Hfree ->]; [exact Htitle|].
  induction l as [|a tl IH]; [exact I|].
  rewrite append_cons in Htitle. simpl in *.
  destruct Htitle as [Ha Htl], Hfree as [_ Hfree]. split; [exact Ha|].
  apply IH; assumption.
Qed.

(** On titles whose characters are all single bytes the two readings of
    the policy agree: [shortenTitle] follows the policy as worded in
    characters. *)
Lemma shortenTitle_policy_ascii (title : string) :
  ascii_only title -> title_policy_in_characters title (shortenTitle title).
Proof.
  intros Hascii. pose proof (first_line_unique title) as Hunique.
  unfold shortenTitle.
  set (line := if negb (IndexByte title newline =? -1)
               then slice_to title (Z.to_nat (IndexByte title newline))
               else title) in *.
  assert (Hline : first_line title line) by (apply Hunique; reflexivity).
  pose proof (ascii_only_first_line _ _ Hascii Hline) as Hl.
  destruct (Z.gtb_spec (len line) 255) as [Hlong | Hshort].
  - rewrite <- (take_chars_ascii line 250 Hl).
    apply characters_long; [exact Hline | rewrite (chars_ascii _ Hl); lia].
  - apply characters_short; [exact Hline | rewrite (chars_ascii _ Hl); lia].
Qed.

(** ** The outcome of merge request creation *)

(** C1, as stated, fails: with a creation call that succeeds and a note
    call that fails, the command returns the nil message, so no "merge
    request created" notification is emitted. *)
Lemma note_failure_drops_created_notification :
  gitlab.CreateMergeRequest Sample.noteFails "feature/x" "main" (shortenTitle "fix bug")
    = (Some Sample.created, None)
  /\ gitlab.CreateMergeRequestNote Sample.noteFails (gitlab.Iid Sample.created)
       "merge automatically" = Some (gitlab.OtherError "note refused")
  /\ returned (run_createMergeRequest Sample.noteFails "merge automatically"
                 "feature/x" "main" "fix bug")
       <> Ok (Some (MergeRequestCreated Sample.created))
  /\ run (Sample.inert) Sample.loaded (CreateMergeRequestCmd "feature/x" "main" "fix bug")
       = Some {| logged := ["Error when marking merge request to be merged automatically "
                              +:+ "note refused"];
                 returned := Ok None |}.
Proof. repeat split. discriminate. Qed.

(** C1, amended: when the creation call succeeds and the note call fails,
    the failure is written to the log and the command returns the nil
    message: neither a "merge request created" nor a failure notification
    is emitted. *)
Theorem note_failure_only_logged
    (client : gitlab.Client) (note sourceBranch targetBranch title : string)
    (mr : gitlab.MergeRequestDetails) (e : gitlab.error) :
  gitlab.CreateMergeRequest client sourceBranch targetBranch (shortenTitle title)
    = (Some mr, None) ->
  gitlab.CreateMergeRequestNote client (gitlab.Iid mr) note = Some e ->
  run_createMergeRequest client note sourceBranch targetBranch title
    = {| logged := ["Error when marking merge request to be merged automatically "
                      +:+ gitlab.Error e];
         returned := Ok None |}.
Proof.
  intros Hcreate Hnote. unfold run_createMergeRequest.
  rewrite Hcreate. simpl. rewrite Hnote. reflexivity.
Qed.

Lemma note_failure_only_logged_witness :
  run_createMergeRequest Sample.noteFails "merge automatically" "feature/x" "main" "fix bug"
    = {| logged := ["Error when marking merge request to be merged automatically "
                      +:+ gitlab.Error (gitlab.OtherError "note refused")];
         returned := Ok None |}.
Proof.
  apply (note_failure_only_logged Sample.noteFails "merge automatically"
           "feature/x" "main" "fix bug" Sample.created
           (gitlab.OtherError "note refused")); reflexivity.
Defined.

(** A message the switch of [Update] has no case for leaves the mode, the
    key bindings and the context as they were. *)
Lemma Update_unhandled_keeps_mode (ext : External) (m : BranchTable) (msg : Msg) :
  dispatch ext m msg = Ok (m, []) ->
  exists (m' : BranchTable) (cmds : list Cmd),
    Update ext m msg = Ok (m', cmds)
    /\ showMergeTargets m' = showMergeTargets m
    /\ keys m' = keys m
    /\ context m' = context m.
Proof.
  intros Hd. unfold Update. rewrite Hd. simpl.
  destruct (showMergeTargets m) eqn:Hmode; simpl.
  - destruct (list_Update ext (branchesList m) msg) as [l cmd].
    eexists _, _. split; [reflexivity|]. simpl. auto.
  - destruct (table_Update ext (flexTable m) msg) as [t cmd].
    eexists _, _. split; [reflexivity|]. simpl. auto.
Qed.

(** C8: a creation call that fails with "already exists" yields a failure
    notification whose text contains the source branch's name; a network
    error yields the advice to check the network connection; any other
    error is logged and yields the generic text pointing at the log file.
    Handling a failure notification leaves the mode, the key bindings and
    the context unchanged. *)
Theorem creation_failure_classified
    (client : gitlab.Client) (note sourceBranch targetBranch title : string) :
  let err :=
    snd (gitlab.CreateMergeRequest client sourceBranch targetBranch (shortenTitle title)) in
  let out := run_createMergeRequest client note sourceBranch targetBranch title in
  (errors_Is_AlreadyExists err = true ->
     exists text : string,
       out = {| logged := []; returned := Ok (Some (MergeRequestFailed text)) |}
       /\ text = "merge request from branch " +:+ sourceBranch +:+ " already exists"
       /\ contains text sourceBranch)
  /\ (errors_Is_AlreadyExists err = false -> errors_As_net_Error err = true ->
        out = {| logged := [];
                 returned := Ok (Some (MergeRequestFailed
                   "merge request creation failed, please check your network connection")) |})
  /\ (forall e : gitlab.error,
        err = Some e ->
        errors_Is_AlreadyExists err = false -> errors_As_net_Error err = false ->
        out = {| logged := ["Error when creating merge request " +:+ gitlab.Error e];
                 returned := Ok (Some (MergeRequestFailed
                   "unrecognized error when creating merge request, please check log file")) |})
  /\ (forall (ext : External) (m : BranchTable) (text : string),
        exists (m' : BranchTable) (cmds : list Cmd),
          Update ext m (failed text) = Ok (m', cmds)
          /\ showMergeTargets m' = showMergeTargets m
          /\ keys m' = keys m
          /\ context m' = context m).
Proof.
  intros err out. subst err out. unfold run_createMergeRequest.
  destruct (gitlab.CreateMergeRequest client sourceBranch targetBranch
              (shortenTitle title)) as [mr err]. simpl snd.
  split; [|split; [|split]].
  - intros ->. eexists. split; [reflexivity|]. split; [reflexivity|].
    exists "merge request from branch ", " already exists". reflexivity.
  - intros -> ->. reflexivity.
  - intros e -> His Has. simpl in His, Has. simpl. rewrite His, Has. reflexivity.
  - intros ext m text. apply Update_unhandled_keeps_mode. reflexivity.
Qed.

(** The three classes at concrete errors, for the source branch feature/x. *)
Lemma creation_failure_classified_witness :
  (exists text : string,
     run_createMergeRequest (Sample.creationFails gitlab.MergeRequestAlreadyExists)
       "merge automatically" "feature/x" "main" "fix bug"
       = {| logged := []; returned := Ok (Some (MergeRequestFailed text)) |}
     /\ text = "merge request from branch " +:+ "feature/x" +:+ " already exists"
     /\ contains text "feature/x")
  /\ run_createMergeRequest (Sample.creationFails (gitlab.Wrapped "dial" (gitlab.NetError "timeout")))
       "merge automatically" "feature/x" "main" "fix bug"
       = {| logged := [];
            returned := Ok (Some (MergeRequestFailed
              "merge request creation failed, please check your network connection")) |}
  /\ run_createMergeRequest (Sample.creationFails (gitlab.OtherError "403"))
       "merge automatically" "feature/x" "main" "fix bug"
       = {| logged := ["Error when creating merge request " +:+ "403"];
            returned := Ok (Some (MergeRequestFailed
              "unrecognized error when creating merge request, please check log file")) |}.
Proof.
  split; [|split].
  - apply (proj1 (creation_failure_classified
                    (Sample.creationFails gitlab.MergeRequestAlreadyExists)
                    "merge automatically" "feature/x" "main" "fix bug")).
    reflexivity.
  - apply (proj1 (proj2 (creation_failure_classified
                    (Sample.creationFails (gitlab.Wrapped "dial" (gitlab.NetError "timeout")))
                    "merge automatically" "feature/x" "main" "fix bug")));
      reflexivity.
  - apply (proj1 (proj2 (proj2 (creation_failure_classified
                    (Sample.creationFails (gitlab.OtherError "403"))
                    "merge automatically" "feature/x" "main" "fix bug")))
             (gitlab.OtherError "403")); reflexivity.
Defined.

(** ** The target picker's items *)

(** The loop with an arbitrary list built so far: the defaults end up in
    front of it, last one first, and the others behind it, in order. *)
Lemma targetBranchItems_acc (branches : list gitlab.Branch) (acc : list branchItem) :
  targetBranchItems branches acc
  = (rev (map item_of (List.filter is_default branches))
       ++ acc ++ map item_of (List.filter not_default branches))%list.
Proof.
  revert acc. induction branches as [|b rest IH]; intros acc; simpl.
  - rewrite app_nil_r. reflexivity.
  - unfold is_default, not_default in *. destruct (gitlab.Default b); simpl.
    + rewrite IH. fold (item_of b). rewrite <- !app_assoc. reflexivity.
    + rewrite IH. fold (item_of b). rewrite <- !app_assoc. reflexivity.
Qed.

Lemma filter_none (branches : list gitlab.Branch) :
  Forall (fun b => gitlab.Default b = false) branches ->
  List.filter is_default branches = [] /\ List.filter not_default branches = branches.
Proof.
  unfold is_default, not_default.
  induction 1 as [|b rest Hb _ [IH1 IH2]]; simpl; [auto|].
  rewrite Hb. simpl. rewrite IH1, IH2. auto.
Qed.

(** What [Update] does with the target branches. *)
Lemma Update_TargetBranches (ext : External) (m : BranchTable)
    (branches : list gitlab.Branch) :
  (forall l msg, bubbles_list.items (list_Update ext l msg).1 = bubbles_list.items l) ->
  exists (m' : BranchTable) (cmds : list Cmd),
    Update ext m (TargetBranches branches) = Ok (m', cmds)
    /\ showMergeTargets m' = showMergeTargets m
    /\ bubbles_list.items (branchesList m') = targetBranchItems branches [].
Proof.
  intros Hitems. unfold Update. simpl.
  destruct (showMergeTargets m) eqn:Hmode; simpl.
  - destruct (list_Update ext _ (TargetBranches branches)) as [l cmd] eqn:Hl.
    eexists _, _. split; [reflexivity|]. simpl. split; [reflexivity|].
    change l with (l, cmd).1. rewrite <- Hl, Hitems. reflexivity.
  - destruct (table_Update ext _ (TargetBranches branches)) as [t cmd].
    eexists _, _. split; [reflexivity|]. simpl. auto.
Qed.

(** C4: after the target branches are applied, a single default branch is
    the first item wherever it stood in the input, followed by all other
    branches in their input order; without a default branch the items are
    in input order. *)
Theorem default_target_first (ext : External) (m : BranchTable)
    (branches : list gitlab.Branch) :
  (forall l msg, bubbles_list.items (list_Update ext l msg).1 = bubbles_list.items l) ->
  exists (m' : BranchTable) (cmds : list Cmd),
    Update ext m (TargetBranches branches) = Ok (m', cmds)
    /\ (forall (before after : list gitlab.Branch) (d : gitlab.Branch),
          branches = (before ++ d :: after)%list ->
          gitlab.Default d = true ->
          Forall (fun b => gitlab.Default b = false) before ->
          Forall (fun b => gitlab.Default b = false) after ->
          bubbles_list.items (branchesList m') !! 0%nat = Some (item_of d)
          /\ bubbles_list.items (branchesList m')
             = item_of d :: map item_of (before ++ after)%list)
    /\ (Forall (fun b => gitlab.Default b = false) branches ->
          bubbles_list.items (branchesList m') = map item_of branches).
Proof.
  intros Hitems.
  destruct (Update_TargetBranches ext m branches Hitems) as (m' & cmds & HU & _ & Hi).
  exists m', cmds. split; [exact HU|]. rewrite Hi, targetBranchItems_acc. simpl.
  split.
  - intros before after d -> Hd Hb Ha.
    destruct (filter_none _ Hb) as [Hb1 Hb2], (filter_none _ Ha) as [Ha1 Ha2].
    assert (Hd1 : is_default d = true) by exact Hd.
    assert (Hd2 : not_default d = false) by (unfold not_default; rewrite Hd; reflexivity).
    rewrite !List.filter_app. simpl. rewrite Hd1, Hd2, Hb1, Hb2, Ha1, Ha2.
    simpl. auto.
  - intros Hnone. destruct (filter_none _ Hnone) as [-> ->]. reflexivity.
Qed.

Lemma default_target_first_witness :
  exists (m' : BranchTable) (cmds : list Cmd),
    Update Sample.inert Sample.picking
      (TargetBranches [Sample.branch "develop" false; Sample.branch "release" false;
                       Sample.branch "main" true; Sample.branch "hotfix" false])
      = Ok (m', cmds)
    /\ bubbles_list.items (branchesList m')
       = [ {| name := "main" |}; {| name := "develop" |}; {| name := "release" |};
           {| name := "hotfix" |} ].
Proof.
  destruct (default_target_first Sample.inert Sample.picking
              [Sample.branch "develop" false; Sample.branch "release" false;
               Sample.branch "main" true; Sample.branch "hotfix" false])
    as (m' & cmds & HU & Hone & _); [reflexivity|].
  exists m', cmds. split; [exact HU|].
  apply (Hone [Sample.branch "develop" false; Sample.branch "release" false]
              [Sample.branch "hotfix" false] (Sample.branch "main" true));
    repeat constructor.
Defined.

(** C10: whatever the number of default branches, the items are the
    default branches in reverse input order followed by the other branches
    in input order; with more than one default branch the defaults thus
    come out reversed. *)
Theorem several_defaults_reversed (ext : External) (m : BranchTable)
    (branches : list gitlab.Branch) :
  (forall l msg, bubbles_list.items (list_Update ext l msg).1 = bubbles_list.items l) ->
  exists (m' : BranchTable) (cmds : list Cmd),
    Update ext m (TargetBranches branches) = Ok (m', cmds)
    /\ bubbles_list.items (branchesList m')
       = (rev (map item_of (List.filter is_default branches))
            ++ map item_of (List.filter not_default branches))%list.
Proof.
  intros Hitems.
  destruct (Update_TargetBranches ext m branches Hitems) as (m' & cmds & HU & _ & Hi).
  exists m', cmds. split; [exact HU|]. rewrite Hi. apply targetBranchItems_acc.
Qed.

Lemma several_defaults_reversed_witness :
  exists (m' : BranchTable) (cmds : list Cmd),
    Update Sample.inert Sample.loaded
      (TargetBranches [Sample.branch "a" false; Sample.branch "main" true;
                       Sample.branch "b" false; Sample.branch "master" true])
      = Ok (m', cmds)
    /\ bubbles_list.items (branchesList m')
       = [ {| name := "master" |}; {| name := "main" |}; {| name := "a" |};
           {| name := "b" |} ].
Proof.
  apply (several_defaults_reversed Sample.inert Sample.loaded
           [Sample.branch "a" false; Sample.branch "main" true;
            Sample.branch "b" false; Sample.branch "master" true]).
  reflexivity.
Defined.

(** ** The branch table's rows *)

Lemma userBranchRows_acc (ext : External) (branches : list gitlab.Branch)
    (acc : list bubble_table.Row) :
  userBranchRows ext branches acc = (acc ++ map (row_of ext) branches)%list.
Proof.
  revert acc. induction branches as [|b rest IH]; intros acc; simpl.
  - rewrite app_nil_r. reflexivity.
  - rewrite IH, <- app_assoc. reflexivity.
Qed.

(** A row carries its branch and the branch's name. *)
Lemma row_of_lookup (ext : External) (branch : gitlab.Branch) :
  bubble_table.Data (row_of ext branch) !! columnKeyBranchMetadata
    = Some (bubble_table.AnyBranch branch)
  /\ bubble_table.Data (row_of ext branch) !! columnKeyBranchName
    = Some (bubble_table.AnyString (gitlab.Name branch)).
Proof.
  unfold row_of, bubble_table.NewRow. simpl. split.
  - rewrite !lookup_insert_ne by discriminate. apply lookup_insert_eq.
  - apply lookup_insert_eq.
Qed.

Lemma rows_WithRows (rs : list bubble_table.Row) (t : bubble_table.Model) :
  bubble_table.rows (bubble_table.WithRows rs t) = rs.
Proof.
  unfold bubble_table.WithRows.
  match goal with |- context [if ?c then _ else _] => destruct c end; reflexivity.
Qed.

(** What [Update] does with the user's branches. *)
Lemma Update_UserBranches (ext : External) (m : BranchTable)
    (branches : list gitlab.Branch) :
  (forall t bs, (table_Update ext t (UserBranches bs)).1 = t) ->
  exists (m' : BranchTable) (cmds : list Cmd),
    Update ext m (UserBranches branches) = Ok (m', cmds)
    /\ showMergeTargets m' = showMergeTargets m
    /\ bubble_table.rows (flexTable m') = map (row_of ext) branches
    /\ bubble_table.currentPage (flexTable m') = 0
    /\ bubble_table.rowCursorIndex (flexTable m') = 0.
Proof.
  intros Htable. unfold Update. simpl.
  destruct (showMergeTargets m) eqn:Hmode; simpl.
  - destruct (list_Update ext _ (UserBranches branches)) as [l cmd].
    eexists _, _. split; [reflexivity|]. simpl.
    rewrite rows_WithRows, userBranchRows_acc. auto.
  - destruct (table_Update ext _ (UserBranches branches)) as [t cmd] eqn:Ht.
    eexists _, _. split; [reflexivity|]. simpl.
    assert (E : t = (t, cmd).1) by reflexivity. rewrite <- Ht, Htable in E. subst t.
    simpl. rewrite rows_WithRows, userBranchRows_acc. auto.
Qed.

(** C7: applying a branch list and then a second one leaves one row per
    branch of the second list, in that list's order and each carrying its
    branch, with nothing kept from the first list; the table is on its
    first page with the cursor on the first row. *)
Theorem branches_fully_replaced (ext : External) (m : BranchTable)
    (L L2 : list gitlab.Branch) :
  (forall t bs, (table_Update ext t (UserBranches bs)).1 = t) ->
  exists (m1 m2 : BranchTable) (c1 c2 : list Cmd),
    Update ext m (UserBranches L) = Ok (m1, c1)
    /\ Update ext m1 (UserBranches L2) = Ok (m2, c2)
    /\ length (bubble_table.rows (flexTable m2)) = length L2
    /\ bubble_table.rows (flexTable m2) = map (row_of ext) L2
    /\ map (fun r => bubble_table.Data r !! columnKeyBranchMetadata)
           (bubble_table.rows (flexTable m2))
       = map (fun b => Some (bubble_table.AnyBranch b)) L2
    /\ bubble_table.currentPage (flexTable m2) = 0
    /\ bubble_table.rowCursorIndex (flexTable m2) = 0.
Proof.
  intros Htable.
  destruct (Update_UserBranches ext m L Htable) as (m1 & c1 & H1 & _).
  destruct (Update_UserBranches ext m1 L2 Htable)
    as (m2 & c2 & H2 & _ & Hrows & Hpage & Hcursor).
  exists m1, m2, c1, c2. rewrite Hrows, length_map, map_map.
  split; [exact H1|]. split; [exact H2|].
  split; [reflexivity|]. split; [reflexivity|].
  split; [|split; assumption].
  apply map_ext. intros b. apply row_of_lookup.
Qed.

Lemma branches_fully_replaced_witness :
  exists (m1 m2 : BranchTable) (c1 c2 : list Cmd),
    Update Sample.inert Sample.loaded
      (UserBranches [Sample.branch "a" false; Sample.branch "b" false;
                     Sample.branch "c" false]) = Ok (m1, c1)
    /\ Update Sample.inert m1 (UserBranches [Sample.branch "z" false]) = Ok (m2, c2)
    /\ length (bubble_table.rows (flexTable m2)) = 1%nat
    /\ bubble_table.rows (flexTable m2)
       = map (row_of Sample.inert) [Sample.branch "z" false]
    /\ map (fun r => bubble_table.Data r !! columnKeyBranchMetadata)
           (bubble_table.rows (flexTable m2))
       = [Some (bubble_table.AnyBranch (Sample.branch "z" false))]
    /\ bubble_table.currentPage (flexTable m2) = 0
    /\ bubble_table.rowCursorIndex (flexTable m2) = 0.
Proof.
  apply (branches_fully_replaced Sample.inert Sample.loaded
           [Sample.branch "a" false; Sample.branch "b" false; Sample.branch "c" false]
           [Sample.branch "z" false]).
  reflexivity.
Defined.

(** ** Key bindings and the mode *)

(** C9: after [changeBranchSelectionVisibility] the bindings' flags are
    determined by the mode flag alone: "merge automatically" and every
    merge-to-favourite binding are disabled exactly when the picker is
    shown, "close picker" and "confirm target" exactly when it is not; the
    keys of the bindings are untouched, so a binding that has keys is
    enabled iff its flag says so. *)
Theorem bindings_follow_mode (ext : External) (visible : bool) (m : BranchTable) :
  let m' := changeBranchSelectionVisibility ext visible m in
  let enabled_iff (b : bubbles_key.Binding) (on : bool) :=
    bubbles_key.disabled b = negb on
    /\ (bubbles_key.keys b <> None -> bubbles_key.Enabled b = on) in
  showMergeTargets m' = visible
  /\ enabled_iff (keys.MergeAutomatically (keys m')) (negb (showMergeTargets m'))
  /\ Forall (fun b => enabled_iff b (negb (showMergeTargets m')))
       (keys.MergeFavourite (keys m'))
  /\ length (keys.MergeFavourite (keys m')) = length (keys.MergeFavourite (keys m))
  /\ enabled_iff (keys.CloseTargetBranchesList (keys m')) (showMergeTargets m')
  /\ enabled_iff (keys.SelectTargetBranch (keys m')) (showMergeTargets m').
Proof.
  assert (Hset : forall (b : bubbles_key.Binding) (on : bool),
             bubbles_key.disabled (bubbles_key.SetEnabled on b) = negb on
             /\ (bubbles_key.keys (bubbles_key.SetEnabled on b) <> None ->
                 bubbles_key.Enabled (bubbles_key.SetEnabled on b) = on)).
  { intros b on. split; [reflexivity|].
    unfold bubbles_key.Enabled, bubbles_key.SetEnabled. simpl.
    destruct (bubbles_key.keys b); [|congruence].
    intros _. destruct on; reflexivity. }
  cbv zeta. unfold changeBranchSelectionVisibility.
  destruct visible; simpl;
    (split; [reflexivity|]);
    (split; [first [apply (Hset _ true) | apply (Hset _ false)]|]);
    (split; [apply List.Forall_map, Forall_forall; intros b _;
             first [apply (Hset b true) | apply (Hset b false)]|]);
    (split; [apply length_map|]);
    (split; first [apply (Hset _ true) | apply (Hset _ false)]).
Qed.

Lemma bindings_follow_mode_witness :
  bubbles_key.Enabled (keys.MergeAutomatically (keys Sample.picking)) = false
  /\ bubbles_key.Enabled (keys.SelectTargetBranch (keys Sample.picking)) = true.
Proof.
  pose proof (bindings_follow_mode Sample.inert true Sample.loaded)
    as (_ & (_ & Hauto) & _ & _ & _ & (_ & Hselect)).
  split; [apply Hauto | apply Hselect]; discriminate.
Defined.

(** ** The state machine *)

(** [Update] after its switch: the mode, bindings and context are those
    the switch left, and only the widget in front sees the message. *)
Lemma Update_after_dispatch (ext : External) (m m1 : BranchTable) (msg : Msg)
    (issued : list (option Cmd)) :
  dispatch ext m msg = Ok (m1, issued) ->
  exists (m' : BranchTable) (cmds : list Cmd),
    Update ext m msg = Ok (m', cmds)
    /\ showMergeTargets m' = showMergeTargets m1
    /\ keys m' = keys m1
    /\ context m' = context m1
    /\ (showMergeTargets m1 = true ->
          flexTable m' = flexTable m1
          /\ branchesList m' = (list_Update ext (branchesList m1) msg).1
          /\ cmds = Batch (issued ++ [(list_Update ext (branchesList m1) msg).2]))
    /\ (showMergeTargets m1 = false ->
          branchesList m' = branchesList m1
          /\ flexTable m' = (table_Update ext (flexTable m1) msg).1
          /\ cmds = Batch (issued ++ [(table_Update ext (flexTable m1) msg).2])).
Proof.
  intros Hd. unfold Update. rewrite Hd. simpl.
  destruct (showMergeTargets m1) eqn:Hmode; simpl.
  - destruct (list_Update ext (branchesList m1) msg) as [l cmd].
    eexists _, _. split; [reflexivity|]. simpl.
    repeat split; auto; discriminate.
  - destruct (table_Update ext (flexTable m1) msg) as [t cmd].
    eexists _, _. split; [reflexivity|]. simpl.
    repeat split; auto; discriminate.
Qed.

(** While the picker is shown the favourite bindings issue nothing. *)
Lemma mergeFavouriteLoop_picking (m : BranchTable) (k : string) (i : Z)
    (bindings : list bubbles_key.Binding) (cmds : list (option Cmd)) :
  showMergeTargets m = true ->
  mergeFavouriteLoop m k i bindings cmds = Ok cmds.
Proof.
  intros Hmode. revert i. induction bindings as [|b rest IH]; intros i; simpl.
  - reflexivity.
  - rewrite Hmode, andb_false_r. apply IH.
Qed.

Lemma targetTotalWidth_recalculated (ext : External) (m : BranchTable) :
  bubble_table.targetTotalWidth (flexTable (recalculateComponents ext m))
    = tableSize ext m.
Proof.
  unfold recalculateComponents, bubble_table.WithPageSize. simpl.
  match goal with |- context [if ?c then _ else _] => destruct c end; reflexivity.
Qed.

Lemma targetTotalWidth_changed (ext : External) (visible : bool) (m : BranchTable) :
  bubble_table.targetTotalWidth
    (flexTable (changeBranchSelectionVisibility ext visible m))
  = if visible then scaleWidth ext (contentSize m) else contentSize m.
Proof.
  unfold changeBranchSelectionVisibility. cbv zeta.
  change (flexTable {| branchesList := ?l; flexTable := ?t; keys := ?k;
                       context := ?c; showMergeTargets := ?s |}) with t.
  rewrite targetTotalWidth_recalculated.
  unfold tableSize, contentSize. simpl. destruct visible; reflexivity.
Qed.

(** C6: while browsing, the "merge automatically" key opens the picker,
    whose filter and selection are reset before the key is forwarded to
    it; while the picker is shown and not filtering, the "close picker"
    key returns to browsing and the table's target width is the full
    content width; while the picker is shown, the "merge automatically"
    key leaves the mode unchanged. *)
Theorem picker_opens_and_closes (ext : External) (m : BranchTable) (k : string) :
  (showMergeTargets m = false ->
   bubbles_key.Matches k (keys.MergeAutomatically (keys m)) = true ->
   exists (m' : BranchTable) (cmds : list Cmd) (reset : bubbles_list.Model),
     Update ext m (KeyMsg k) = Ok (m', cmds)
     /\ showMergeTargets m' = true
     /\ branchesList m' = (list_Update ext reset (KeyMsg k)).1
     /\ bubbles_list.filterState reset = bubbles_list.Unfiltered
     /\ bubbles_list.index reset = 0
     /\ bubbles_list.VisibleItems reset = bubbles_list.items (branchesList m))
  /\ (showMergeTargets m = true ->
      notFiltering m = true ->
      bubbles_key.Matches k (keys.MergeAutomatically (keys m)) = false ->
      bubbles_key.Matches k (keys.CloseTargetBranchesList (keys m)) = true ->
      (forall t msg, bubble_table.targetTotalWidth (table_Update ext t msg).1
                     = bubble_table.targetTotalWidth t) ->
      exists (m' : BranchTable) (cmds : list Cmd),
        Update ext m (KeyMsg k) = Ok (m', cmds)
        /\ showMergeTargets m' = false
        /\ contentSize m' = contentSize m
        /\ tableSize ext m' = contentSize m'
        /\ bubble_table.targetTotalWidth (flexTable m') = contentSize m')
  /\ (showMergeTargets m = true ->
      bubbles_key.Matches k (keys.MergeAutomatically (keys m)) = true
      \/ (bubbles_key.Matches k (keys.CloseTargetBranchesList (keys m)) = false
          /\ bubbles_key.Matches k (keys.SelectTargetBranch (keys m)) = false) ->
      exists (m' : BranchTable) (cmds : list Cmd),
        Update ext m (KeyMsg k) = Ok (m', cmds)
        /\ showMergeTargets m' = true).
Proof.
  split; [|split].
  - intros Hmode Hkey.
    assert (Hd : dispatch ext m (KeyMsg k)
                 = Ok (changeBranchSelectionVisibility ext true m, [])).
    { simpl. unfold handleKey. rewrite Hkey, Hmode. reflexivity. }
    destruct (Update_after_dispatch _ _ _ _ _ Hd)
      as (m' & cmds & HU & Hm & _ & _ & Hlist & _).
    destruct (Hlist eq_refl) as (_ & Hl & _).
    exists m', cmds, (branchesList (changeBranchSelectionVisibility ext true m)).
    split; [exact HU|]. split; [exact Hm|]. split; [exact Hl|].
    unfold changeBranchSelectionVisibility, bubbles_list.VisibleItems,
      bubbles_list.ResetFilter. simpl.
    destruct (branchesList m) as [its fits [] input idx w h]; simpl; auto.
  - intros Hmode Hfilter Hauto Hclose Hwidth.
    assert (Hd : dispatch ext m (KeyMsg k)
                 = Ok (changeBranchSelectionVisibility ext false m, [])).
    { simpl. unfold handleKey. rewrite Hauto, Hclose, Hmode, Hfilter. reflexivity. }
    destruct (Update_after_dispatch _ _ _ _ _ Hd)
      as (m' & cmds & HU & Hm & _ & Hctx & _ & Htable).
    destruct (Htable eq_refl) as (_ & Ht & _).
    exists m', cmds. split; [exact HU|]. split; [exact Hm|].
    assert (Hsize : contentSize m' = contentSize m)
      by (unfold contentSize; rewrite Hctx; reflexivity).
    split; [exact Hsize|].
    split; [unfold tableSize; rewrite Hm; reflexivity|].
    rewrite Ht, Hwidth, Hsize. apply targetTotalWidth_changed.
  - intros Hmode Hkey.
    assert (Hd : dispatch ext m (KeyMsg k) = Ok (m, [])).
    { simpl. unfold handleKey. destruct Hkey as [Hauto | [Hclose Hselect]].
      - rewrite Hauto, Hmode. reflexivity.
      - destruct (bubbles_key.Matches k (keys.MergeAutomatically (keys m)));
          [rewrite Hmode; reflexivity|].
        rewrite Hclose, Hselect, mergeFavouriteLoop_picking by exact Hmode.
        reflexivity. }
    destruct (Update_after_dispatch _ _ _ _ _ Hd) as (m' & cmds & HU & Hm & _).
    exists m', cmds. split; [exact HU | congruence].
Qed.

(** Opening the picker with "m", closing it with "esc" (the table is then
    96 cells wide, the window's 100 less the frame's 4), and pressing "m"
    while it is open. *)
Lemma picker_opens_and_closes_witness :
  (exists (m' : BranchTable) (cmds : list Cmd),
     Update Sample.inert Sample.loaded (KeyMsg "m") = Ok (m', cmds)
     /\ showMergeTargets m' = true)
  /\ (exists (m' : BranchTable) (cmds : list Cmd),
        Update Sample.inert Sample.picking (KeyMsg "esc") = Ok (m', cmds)
        /\ showMergeTargets m' = false
        /\ bubble_table.targetTotalWidth (flexTable m') = 96)
  /\ (exists (m' : BranchTable) (cmds : list Cmd),
        Update Sample.inert Sample.picking (KeyMsg "m") = Ok (m', cmds)
        /\ showMergeTargets m' = true).
Proof.
  split; [|split].
  - destruct (proj1 (picker_opens_and_closes Sample.inert Sample.loaded "m"))
      as (m' & cmds & _ & HU & Hm & _); [reflexivity | reflexivity |].
    exists m', cmds. split; assumption.
  - destruct (proj1 (proj2 (picker_opens_and_closes Sample.inert Sample.picking "esc")))
      as (m' & cmds & HU & Hm & Hsize & _ & Hw);
      [reflexivity | reflexivity | reflexivity | reflexivity | reflexivity |].
    exists m', cmds. split; [exact HU|]. split; [exact Hm|].
    rewrite Hw, Hsize. reflexivity.
  - apply (proj2 (proj2 (picker_opens_and_closes Sample.inert Sample.picking "m")));
      [reflexivity|].
    right. split; reflexivity.
Defined.

(** ** Issuing merge requests *)

(** With no rows the highlighted row is the zero row: its data has no
    branch, and the type assertion panics. *)
Lemma highlightedBranch_empty (m : BranchTable) :
  bubble_table.rows (flexTable m) = [] -> highlightedBranch m = Panic.
Proof.
  intros Hrows. unfold highlightedBranch, bubble_table.HighlightedRow.
  rewrite Hrows. simpl. rewrite lookup_empty. reflexivity.
Qed.

(** A highlighted row built by [Update] yields its branch. *)
Lemma highlightedBranch_row (ext : External) (m : BranchTable) (b : gitlab.Branch) :
  go_index (bubble_table.rows (flexTable m)) (bubble_table.rowCursorIndex (flexTable m))
    = Ok (row_of ext b) ->
  highlightedBranch m = Ok b.
Proof.
  intros Hrow. unfold highlightedBranch, bubble_table.HighlightedRow.
  destruct (bubble_table.rows (flexTable m)) as [|r rows] eqn:Hrows.
  - unfold go_index in Hrow.
    destruct (bubble_table.rowCursorIndex (flexTable m) <? 0); [discriminate|].
    rewrite lookup_nil in Hrow. discriminate.
  - change (0 <? Z.of_nat (length (r :: rows))) with true. cbv iota.
    rewrite Hrow. unfold rbind.
    rewrite (proj1 (row_of_lookup ext b)). reflexivity.
Qed.

Lemma mergeFavouriteLoop_no_match (m : BranchTable) (k : string) (i : Z)
    (bindings : list bubbles_key.Binding) (cmds : list (option Cmd)) :
  Forall (fun b => bubbles_key.Matches k b = false) bindings ->
  mergeFavouriteLoop m k i bindings cmds = Ok cmds.
Proof.
  intros Hnone. revert i. induction Hnone as [|b rest Hb _ IH]; intros i; simpl.
  - reflexivity.
  - rewrite Hb. simpl. apply IH.
Qed.

Lemma mergeFavouriteLoop_panics (m : BranchTable) (k : string) (i : Z)
    (bindings : list bubbles_key.Binding) (cmds : list (option Cmd)) :
  showMergeTargets m = false ->
  highlightedBranch m = Panic ->
  Exists (fun b => bubbles_key.Matches k b = true) bindings ->
  mergeFavouriteLoop m k i bindings cmds = Panic.
Proof.
  intros Hmode Hpanic Hsome. revert i cmds.
  induction Hsome as [b rest Hb | b rest _ IH]; intros i cmds; simpl.
  - rewrite Hb, Hmode, Hpanic. reflexivity.
  - rewrite Hmode, Hpanic.
    destruct (bubbles_key.Matches k b); simpl; [reflexivity | apply IH].
Qed.

(** The favourite loop when exactly the binding at position [length before]
    matches the key. *)
Lemma mergeFavouriteLoop_one (m : BranchTable) (k : string)
    (before after : list bubbles_key.Binding) (b : bubbles_key.Binding)
    (sourceBranch : gitlab.Branch) (favourite : string) :
  showMergeTargets m = false ->
  highlightedBranch m = Ok sourceBranch ->
  Forall (fun b => bubbles_key.Matches k b = false) before ->
  bubbles_key.Matches k b = true ->
  Forall (fun b => bubbles_key.Matches k b = false) after ->
  context.FavouriteBranches (context m) !! length before = Some favourite ->
  mergeFavouriteLoop m k 0 (before ++ b :: after)%list []
    = Ok [Some (CreateMergeRequestCmd (gitlab.Name sourceBranch) favourite
                  (gitlab.Message (gitlab.Commit_ sourceBranch)))].
Proof.
  intros Hmode Hsrc Hbefore Hb Hafter Hfav.
  assert (Hgen : forall i : Z,
            0 <= i ->
            context.FavouriteBranches (context m) !! (Z.to_nat i + length before)%nat
              = Some favourite ->
            mergeFavouriteLoop m k i (before ++ b :: after)%list []
              = Ok [Some (CreateMergeRequestCmd (gitlab.Name sourceBranch) favourite
                            (gitlab.Message (gitlab.Commit_ sourceBranch)))]).
  { clear Hfav. induction Hbefore as [|b0 rest Hb0 _ IH]; intros i Hi Hfav; simpl.
    - rewrite Hb, Hmode, Hsrc. simpl. unfold go_index.
      destruct (Z.ltb_spec i 0); [lia|].
      rewrite Nat.add_0_r in Hfav. rewrite Hfav. simpl.
      apply mergeFavouriteLoop_no_match, Hafter.
    - rewrite Hb0. simpl. apply IH; [lia|].
      replace (Z.to_nat (i + 1) + length rest)%nat
        with (Z.to_nat i + length (b0 :: rest))%nat by (simpl; lia).
      exact Hfav. }
  apply Hgen; [lia | exact Hfav].
Qed.

(** While browsing with a highlighted branch, the key of exactly one
    favourite binding issues the creation command for that favourite and
    the mode stays as it is. *)
Lemma favourite_issues_request (ext : External) (m : BranchTable) (k : string)
    (before after : list bubbles_key.Binding) (b : bubbles_key.Binding)
    (sourceBranch : gitlab.Branch) (favourite : string) :
  showMergeTargets m = false ->
  bubbles_key.Matches k (keys.MergeAutomatically (keys m)) = false ->
  bubbles_key.Matches k (keys.CloseTargetBranchesList (keys m)) = false ->
  bubbles_key.Matches k (keys.SelectTargetBranch (keys m)) = false ->
  keys.MergeFavourite (keys m) = (before ++ b :: after)%list ->
  Forall (fun b => bubbles_key.Matches k b = false) before ->
  bubbles_key.Matches k b = true ->
  Forall (fun b => bubbles_key.Matches k b = false) after ->
  context.FavouriteBranches (context m) !! length before = Some favourite ->
  highlightedBranch m = Ok sourceBranch ->
  exists (m' : BranchTable) (cmds : list Cmd),
    Update ext m (KeyMsg k) = Ok (m', cmds)
    /\ showMergeTargets m' = false
    /\ head cmds = Some (CreateMergeRequestCmd (gitlab.Name sourceBranch) favourite
                           (gitlab.Message (gitlab.Commit_ sourceBranch))).
Proof.
  intros Hmode Hauto Hclose Hselect Hfavs Hbefore Hb Hafter Hfav Hsrc.
  assert (Hd : dispatch ext m (KeyMsg k)
               = Ok (m, [Some (CreateMergeRequestCmd (gitlab.Name sourceBranch) favourite
                                 (gitlab.Message (gitlab.Commit_ sourceBranch)))])).
  { simpl. unfold handleKey. rewrite Hauto, Hclose, Hselect, Hfavs.
    rewrite (mergeFavouriteLoop_one m k before after b sourceBranch favourite)
      by assumption.
    reflexivity. }
  destruct (Update_after_dispatch _ _ _ _ _ Hd)
    as (m' & cmds & HU & Hm & _ & _ & _ & Htable).
  destruct (Htable Hmode) as (_ & _ & ->).
  exists m'. eexists. split; [exact HU|]. split; [congruence | reflexivity].
Qed.

(** While the picker is shown and not filtering, with a highlighted branch
    and a selected target, the "confirm target" key issues the creation
    command and returns to browsing. *)
Lemma confirm_issues_request (ext : External) (m : BranchTable) (k : string)
    (sourceBranch : gitlab.Branch) (targetBranch : branchItem) :
  showMergeTargets m = true ->
  notFiltering m = true ->
  bubbles_key.Matches k (keys.MergeAutomatically (keys m)) = false ->
  bubbles_key.Matches k (keys.CloseTargetBranchesList (keys m)) = false ->
  bubbles_key.Matches k (keys.SelectTargetBranch (keys m)) = true ->
  highlightedBranch m = Ok sourceBranch ->
  bubbles_list.SelectedItem (branchesList m) = Some targetBranch ->
  exists (m' : BranchTable) (cmds : list Cmd),
    Update ext m (KeyMsg k) = Ok (m', cmds)
    /\ showMergeTargets m' = false
    /\ head cmds = Some (CreateMergeRequestCmd (gitlab.Name sourceBranch)
                           (name targetBranch)
                           (gitlab.Message (gitlab.Commit_ sourceBranch))).
Proof.
  intros Hmode Hfilter Hauto Hclose Hselect Hsrc Htgt.
  assert (Hd : dispatch ext m (KeyMsg k)
               = Ok (changeBranchSelectionVisibility ext false m,
                     [Some (CreateMergeRequestCmd (gitlab.Name sourceBranch)
                              (name targetBranch)
                              (gitlab.Message (gitlab.Commit_ sourceBranch)))])).
  { simpl. unfold handleKey.
    rewrite Hauto, Hclose, Hselect, Hmode, Hfilter, Hsrc, Htgt. reflexivity. }
  destruct (Update_after_dispatch _ _ _ _ _ Hd)
    as (m' & cmds & HU & Hm & _ & _ & _ & Htable).
  destruct (Htable eq_refl) as (_ & _ & ->).
  exists m'. eexists. split; [exact HU|]. split; [exact Hm | reflexivity].
Qed.

(** C2, on the code: while the picker is shown and not filtering, the
    "confirm target" key pressed with an empty branch table or with no
    selected target makes [Update] panic on a type assertion; it neither
    returns the unchanged tab nor any command. *)
Theorem confirm_without_selection_panics (ext : External) (m : BranchTable)
    (k : string) :
  showMergeTargets m = true ->
  notFiltering m = true ->
  bubbles_key.Matches k (keys.MergeAutomatically (keys m)) = false ->
  bubbles_key.Matches k (keys.CloseTargetBranchesList (keys m)) = false ->
  bubbles_key.Matches k (keys.SelectTargetBranch (keys m)) = true ->
  bubble_table.rows (flexTable m) = []
  \/ bubbles_list.SelectedItem (branchesList m) = None ->
  Update ext m (KeyMsg k) = Panic.
Proof.
  intros Hmode Hfilter Hauto Hclose Hselect Hmissing.
  unfold Update. simpl. unfold handleKey.
  rewrite Hauto, Hclose, Hselect, Hmode, Hfilter. simpl.
  destruct Hmissing as [Hrows | Hnone].
  - rewrite (highlightedBranch_empty m Hrows). reflexivity.
  - destruct (highlightedBranch m); [|reflexivity].
    simpl. rewrite Hnone. reflexivity.
Qed.

(** The picker opened on a tab without branches ("m" pressed on the fresh
    tab), then "enter". *)
Lemma confirm_without_selection_panics_witness :
  Update Sample.inert Sample.fresh (KeyMsg "m") = Ok (Sample.pickingEmpty, [])
  /\ Update Sample.inert Sample.pickingEmpty (KeyMsg "enter") = Panic.
Proof.
  split; [reflexivity|].
  apply (confirm_without_selection_panics Sample.inert Sample.pickingEmpty "enter");
    try reflexivity.
  left. reflexivity.
Defined.

(** C5, on the code: while browsing, the key of a favourite binding
    pressed with an empty branch table makes [Update] panic on the type
    assertion of the highlighted row's branch. *)
Theorem favourite_without_branch_panics (ext : External) (m : BranchTable)
    (k : string) :
  showMergeTargets m = false ->
  bubbles_key.Matches k (keys.MergeAutomatically (keys m)) = false ->
  bubbles_key.Matches k (keys.CloseTargetBranchesList (keys m)) = false ->
  bubbles_key.Matches k (keys.SelectTargetBranch (keys m)) = false ->
  Exists (fun b => bubbles_key.Matches k b = true) (keys.MergeFavourite (keys m)) ->
  bubble_table.rows (flexTable m) = [] ->
  Update ext m (KeyMsg k) = Panic.
Proof.
  intros Hmode Hauto Hclose Hselect Hfav Hrows.
  unfold Update. simpl. unfold handleKey.
  rewrite Hauto, Hclose, Hselect.
  rewrite mergeFavouriteLoop_panics;
    [reflexivity | exact Hmode | apply highlightedBranch_empty, Hrows | exact Hfav].
Qed.

(** The first favourite's key pressed on the fresh tab. *)
Lemma favourite_without_branch_panics_witness :
  Update Sample.inert Sample.fresh (KeyMsg "1") = Panic.
Proof.
  apply (favourite_without_branch_panics Sample.inert Sample.fresh "1");
    try reflexivity.
  apply Exists_cons_hd. reflexivity.
Defined.

(** The same two keys on a tab that has branches and targets. *)
Example favourite_on_loaded_tab :
  exists m' : BranchTable,
    Update Sample.inert Sample.loaded (KeyMsg "2")
      = Ok (m', [CreateMergeRequestCmd "feature/x" "develop" "fix bug"])
    /\ showMergeTargets m' = false.
Proof. eexists. split; reflexivity. Qed.

Example confirm_on_loaded_tab :
  exists m' : BranchTable,
    Update Sample.inert Sample.picking (KeyMsg "enter")
      = Ok (m', [CreateMergeRequestCmd "feature/x" "main" "fix bug"])
    /\ showMergeTargets m' = false.
Proof. eexists. split; reflexivity. Qed.


(** * Further properties *)

(** ** The title policy, continued *)

Lemma free_of_slice_to (c : ascii) (s : string) (n : nat) :
  free_of c s -> free_of c (slice_to s n).
Proof.
  revert s. induction n as [|n IH]; intros [|a tl]; simpl; auto.
  intros [Hne Hfree]. split; [assumption | apply IH, Hfree].
Qed.

Lemma free_of_append (c : ascii) (s t : string) :
  free_of c s -> free_of c t -> free_of c (s +:+ t).
Proof.
  intros Hs Ht. induction s as [|a tl IH]; rewrite ?append_nil, ?append_cons; simpl.
  - exact Ht.
  - destruct Hs as [Hne Hs]. split; [assumption | apply IH, Hs].
Qed.

Lemma first_line_free (title line : string) :
  first_line title line -> free_of newline line.
Proof. intros [H | l rest H _]; exact H. Qed.

Lemma first_line_exists (title : string) :
  first_line title
    (if negb (IndexByte title newline =? -1)
     then slice_to title (Z.to_nat (IndexByte title newline))
     else title).
Proof. apply first_line_unique. reflexivity. Qed.

(** A title without a line break and of at most 255 bytes is kept. *)
Lemma shortenTitle_keeps (title : string) :
  free_of newline title -> len title <= 255 -> shortenTitle title = title.
Proof.
  intros Hfree Hlen. unfold shortenTitle.
  apply IndexByte_absent in Hfree. rewrite Hfree. simpl negb. cbv iota.
  destruct (Z.gtb_spec (len title) 255); [lia | reflexivity].
Qed.

Lemma shortenTitle_range (title : string) :
  len (shortenTitle title) <= 255 /\ free_of newline (shortenTitle title).
Proof.
  pose proof (first_line_exists title) as Hline.
  apply first_line_free in Hline. unfold shortenTitle.
  set (line := if negb (IndexByte title newline =? -1)
               then slice_to title (Z.to_nat (IndexByte title newline))
               else title) in *.
  destruct (Z.gtb_spec (len line) 255) as [Hlong | Hshort].
  - split.
    + unfold len in *. rewrite length_append, slice_to_length by lia. simpl. lia.
    + apply free_of_append; [apply free_of_slice_to, Hline|].
      simpl. repeat split; discriminate.
  - split; assumption.
Qed.

(** X1: whatever the title, the shortened title is at most 255 bytes long
    and contains no line break. *)
Theorem shortenTitle_bounded (title : string) :
  len (shortenTitle title) <= 255 /\ free_of newline (shortenTitle title).
Proof. apply shortenTitle_range. Qed.

(** X2: shortening a shortened title changes nothing. *)
Theorem shortenTitle_idempotent (title : string) :
  shortenTitle (shortenTitle title) = shortenTitle title.
Proof.
  destruct (shortenTitle_range title) as [Hlen Hfree].
  apply shortenTitle_keeps; assumption.
Qed.

(** X3: the titles [shortenTitle] leaves unchanged are exactly those
    without a line break and of at most 255 bytes. *)
Theorem shortenTitle_fixed_points (title : string) :
  shortenTitle title = title <-> free_of newline title /\ len title <= 255.
Proof.
  split.
  - intros Hfix. destruct (shortenTitle_range title) as [Hlen Hfree].
    rewrite Hfix in Hlen, Hfree. split; assumption.
  - intros [Hfree Hlen]. apply shortenTitle_keeps; assumption.
Qed.

(** ** The outcome of merge request creation, continued *)

(** X4: the command returns the "merge request created" notification for
    a record exactly when the creation call returned that record without
    an error and the note call on its id succeeded. *)
Theorem created_notification_iff (client : gitlab.Client)
    (note sourceBranch targetBranch title : string)
    (mr : gitlab.MergeRequestDetails) :
  returned (run_createMergeRequest client note sourceBranch targetBranch title)
    = Ok (Some (MergeRequestCreated mr))
  <-> gitlab.CreateMergeRequest client sourceBranch targetBranch (shortenTitle title)
        = (Some mr, None)
      /\ gitlab.CreateMergeRequestNote client (gitlab.Iid mr) note = None.
Proof.
  unfold run_createMergeRequest.
  destruct (gitlab.CreateMergeRequest client sourceBranch targetBranch
              (shortenTitle title)) as [[mr0|] [e|]]; simpl.
  - destruct (gitlab.is_already_exists e), (gitlab.as_net_error e); simpl;
      split; try discriminate; intros [? _]; discriminate.
  - destruct (gitlab.CreateMergeRequestNote client (gitlab.Iid mr0) note) eqn:Hnote;
      simpl; split.
    + discriminate.
    + intros [Heq Hn]. injection Heq as ->. congruence.
    + intros Heq. injection Heq as ->. auto.
    + intros [Heq _]. injection Heq as ->. reflexivity.
  - destruct (gitlab.is_already_exists e), (gitlab.as_net_error e); simpl;
      split; try discriminate; intros [? _]; discriminate.
  - split; [discriminate | intros [? _]; discriminate].
Qed.

(** X5: the command returns a failure notification exactly when the
    creation call returned an error; whether a record came with the error
    and what the note call would answer make no difference, and the
    command calls [log.Printf] at most once. *)
Theorem failure_notification_iff (client : gitlab.Client)
    (note sourceBranch targetBranch title : string) :
  let out := run_createMergeRequest client note sourceBranch targetBranch title in
  ((exists text : string, returned out = Ok (Some (MergeRequestFailed text)))
   <-> (gitlab.CreateMergeRequest client sourceBranch targetBranch
          (shortenTitle title)).2 <> None)
  /\ (length (logged out) <= 1)%nat.
Proof.
  cbv zeta. unfold run_createMergeRequest.
  destruct (gitlab.CreateMergeRequest client sourceBranch targetBranch
              (shortenTitle title)) as [mr [e|]]; simpl.
  - destruct (gitlab.is_already_exists e), (gitlab.as_net_error e); simpl;
      (split; [split; [discriminate | intros _; eexists; reflexivity] | lia]).
  - destruct mr as [mr|]; simpl.
    + destruct (gitlab.CreateMergeRequestNote client (gitlab.Iid mr) note); simpl;
        (split; [split; [intros [? ?]; discriminate | congruence] | lia]).
    + split; [split; [intros [? ?]; discriminate | congruence] | lia].
Qed.

(** X6: the command panics exactly when the creation call returned
    neither a record nor an error: the record's id is read without a nil
    check. *)
Theorem creation_panics_iff (client : gitlab.Client)
    (note sourceBranch targetBranch title : string) :
  returned (run_createMergeRequest client note sourceBranch targetBranch title) = Panic
  <-> gitlab.CreateMergeRequest client sourceBranch targetBranch (shortenTitle title)
        = (None, None).
Proof.
  unfold run_createMergeRequest.
  destruct (gitlab.CreateMergeRequest client sourceBranch targetBranch
              (shortenTitle title)) as [[mr|] [e|]]; simpl.
  - destruct (gitlab.is_already_exists e), (gitlab.as_net_error e); simpl;
      split; discriminate.
  - destruct (gitlab.CreateMergeRequestNote client (gitlab.Iid mr) note); simpl;
      split; discriminate.
  - destruct (gitlab.is_already_exists e), (gitlab.as_net_error e); simpl;
      split; discriminate.
  - split; reflexivity.
Qed.

(** ** Layout *)

Lemma wrap_int_range (z : Z) : - 2 ^ 63 <= wrap_int z < 2 ^ 63.
Proof.
  unfold wrap_int.
  pose proof (Z.mod_pos_bound (z + 2 ^ 63) (2 ^ 64) eq_refl) as H.
  change (2 ^ 64) with (2 ^ 63 + 2 ^ 63) in *. lia.
Qed.

(** What is left of the content width after a part of it is taken, added
    back to that part, is the content width again in 64-bit arithmetic. *)
Lemma wrap_int_remainder (part whole : Z) :
  - 2 ^ 63 <= whole < 2 ^ 63 ->
  wrap_int (part + wrap_int (whole - part)) = whole.
Proof.
  intros Hrange. unfold wrap_int.
  rewrite (Z.mod_eq (whole - part + 2 ^ 63) (2 ^ 64)) by discriminate.
  set (q := (whole - part + 2 ^ 63) / 2 ^ 64).
  replace (part + (whole - part + 2 ^ 63 - 2 ^ 64 * q - 2 ^ 63) + 2 ^ 63)
    with (whole + 2 ^ 63 + (- q) * 2 ^ 64) by ring.
  rewrite Z_mod_plus_full, Z.mod_small.
  - ring.
  - change (2 ^ 64) with (2 ^ 63 + 2 ^ 63). lia.
Qed.

Lemma WithPageSize_keeps (n : Z) (t : bubble_table.Model) :
  bubble_table.rows (bubble_table.WithPageSize n t) = bubble_table.rows t
  /\ bubble_table.pageSize (bubble_table.WithPageSize n t) = n
  /\ bubble_table.targetTotalWidth (bubble_table.WithPageSize n t)
     = bubble_table.targetTotalWidth t
  /\ bubble_table.rowCursorIndex (bubble_table.WithPageSize n t)
     = bubble_table.rowCursorIndex t.
Proof.
  unfold bubble_table.WithPageSize.
  match goal with |- context [if ?c then _ else _] => destruct c end; simpl; auto.
Qed.

(** X7: recalculating the components gives the table and the picker
    widths that add up to the content width (the table the whole of it and
    the picker none while browsing), the picker the context's content
    height and the table the context's page size; rows, cursor, items,
    filter, selection, key bindings, mode and context are left alone. *)
Theorem panes_share_content_width (ext : External) (m : BranchTable) :
  let m' := recalculateComponents ext m in
  wrap_int (bubble_table.targetTotalWidth (flexTable m')
            + bubbles_list.width (branchesList m')) = contentSize m
  /\ (showMergeTargets m = false ->
        bubble_table.targetTotalWidth (flexTable m') = contentSize m
        /\ bubbles_list.width (branchesList m') = 0)
  /\ bubbles_list.height (branchesList m') = context.TableContentHeight (context m)
  /\ bubble_table.pageSize (flexTable m') = context.TablePageSize (context m)
  /\ bubble_table.rows (flexTable m') = bubble_table.rows (flexTable m)
  /\ bubble_table.rowCursorIndex (flexTable m')
     = bubble_table.rowCursorIndex (flexTable m)
  /\ bubbles_list.items (branchesList m') = bubbles_list.items (branchesList m)
  /\ bubbles_list.filterState (branchesList m')
     = bubbles_list.filterState (branchesList m)
  /\ bubbles_list.index (branchesList m') = bubbles_list.index (branchesList m)
  /\ keys m' = keys m
  /\ showMergeTargets m' = showMergeTargets m
  /\ context m' = context m.
Proof.
  cbv zeta.
  pose proof (targetTotalWidth_recalculated ext m) as Hw.
  assert (Hl : bubbles_list.width (branchesList (recalculateComponents ext m))
               = wrap_int (contentSize m - tableSize ext m)) by reflexivity.
  assert (Ht : flexTable (recalculateComponents ext m)
               = bubble_table.WithPageSize (context.TablePageSize (context m))
                   (bubble_table.WithTargetWidth (tableSize ext m) (flexTable m)))
    by reflexivity.
  destruct (WithPageSize_keeps (context.TablePageSize (context m))
              (bubble_table.WithTargetWidth (tableSize ext m) (flexTable m)))
    as (Hrows & Hpage & _ & Hcursor).
  rewrite Hw, Hl, Ht, Hrows, Hpage, Hcursor.
  split; [apply wrap_int_remainder; unfold contentSize; apply wrap_int_range|].
  split.
  { intros Hmode. unfold tableSize. rewrite Hmode. split; [reflexivity|].
    rewrite Z.sub_diag. reflexivity. }
  repeat split; reflexivity.
Qed.

Lemma panes_share_content_width_witness :
  bubble_table.targetTotalWidth (flexTable (recalculateComponents Sample.inert Sample.loaded))
    = 96
  /\ bubbles_list.width (branchesList (recalculateComponents Sample.inert Sample.loaded))
    = 0.
Proof.
  apply (proj1 (proj2 (panes_share_content_width Sample.inert Sample.loaded))).
  reflexivity.
Defined.

(** ** Mode changes *)

Lemma table_recalculated_twice (n w1 w2 : Z) (t : bubble_table.Model) :
  bubble_table.WithPageSize n
    (bubble_table.WithTargetWidth w2
       (bubble_table.WithPageSize n (bubble_table.WithTargetWidth w1 t)))
  = bubble_table.WithPageSize n (bubble_table.WithTargetWidth w2 t).
Proof.
  destruct t as [rows cursor page size width].
  unfold bubble_table.WithPageSize, bubble_table.WithTargetWidth,
    bubble_table.MaxPages. simpl.
  set (pages := if (n =? 0) || (Z.of_nat (length rows) <? 1) then 1
                else Z.quot (Z.of_nat (length rows) - 1) n + 1).
  destruct (Z.geb_spec page pages) as [Hge | Hlt]; simpl; fold pages.
  - destruct (Z.geb_spec (pages - 1) pages); [lia | reflexivity].
  - destruct (Z.geb_spec page pages); [lia | reflexivity].
Qed.

Lemma list_reset_twice (w1 w2 h : Z) (l : bubbles_list.Model) :
  bubbles_list.ResetSelected (bubbles_list.ResetFilter
    (bubbles_list.SetHeight h (bubbles_list.SetWidth w2
       (bubbles_list.ResetSelected (bubbles_list.ResetFilter
          (bubbles_list.SetHeight h (bubbles_list.SetWidth w1 l)))))))
  = bubbles_list.ResetSelected (bubbles_list.ResetFilter
      (bubbles_list.SetHeight h (bubbles_list.SetWidth w2 l))).
Proof. destruct l as [its fits [] input idx w h0]; reflexivity. Qed.

(** X8: a mode change wipes out the one before it: changing the picker's
    visibility twice leaves the tab as the second change alone would.  In
    particular a change made twice is made once, and opening and closing
    the picker leaves the tab as closing it does. *)
Theorem mode_change_absorbs (ext : External) (first second : bool) (m : BranchTable) :
  changeBranchSelectionVisibility ext second
    (changeBranchSelectionVisibility ext first m)
  = changeBranchSelectionVisibility ext second m.
Proof.
  destruct m as [l t k c s].
  unfold changeBranchSelectionVisibility, recalculateComponents, tableSize,
    contentSize. simpl.
  rewrite table_recalculated_twice, list_reset_twice, map_map.
  reflexivity.
Qed.

(** X9: every mode change leaves the picker unfiltered with its selection
    on the first item of the full item list, or on nothing when there is
    no item. *)
Theorem mode_change_selects_first (ext : External) (visible : bool) (m : BranchTable) :
  let picker := branchesList (changeBranchSelectionVisibility ext visible m) in
  bubbles_list.filterState picker = bubbles_list.Unfiltered
  /\ bubbles_list.SelectedItem picker = head (bubbles_list.items (branchesList m)).
Proof.
  cbv zeta. unfold changeBranchSelectionVisibility, recalculateComponents. simpl.
  destruct (branchesList m) as [its fits [] input idx w h]; simpl;
    (split; [reflexivity|]);
    unfold bubbles_list.SelectedItem, bubbles_list.VisibleItems; simpl;
    destruct its; reflexivity.
Qed.

(** A disabled binding matches no key. *)
Lemma disabled_never_matches (k : string) (b : bubbles_key.Binding) :
  bubbles_key.disabled b = true -> bubbles_key.Matches k b = false.
Proof.
  intros Hoff. unfold bubbles_key.Matches, bubbles_key.Enabled. rewrite Hoff. simpl.
  induction (default [] (bubbles_key.keys b)) as [|v vs IH]; simpl.
  - reflexivity.
  - rewrite andb_false_r. exact IH.
Qed.

(** X10: while the bindings agree with the mode, no key press matches a
    binding of the other mode: with the picker shown neither "merge
    automatically" nor a favourite binding matches, and while browsing
    neither "close picker" nor "confirm target" does. *)
Theorem other_mode_never_matches (m : BranchTable) (k : string) :
  bindings_consistent m ->
  (showMergeTargets m = true ->
     bubbles_key.Matches k (keys.MergeAutomatically (keys m)) = false
     /\ Forall (fun b => bubbles_key.Matches k b = false) (keys.MergeFavourite (keys m)))
  /\ (showMergeTargets m = false ->
        bubbles_key.Matches k (keys.CloseTargetBranchesList (keys m)) = false
        /\ bubbles_key.Matches k (keys.SelectTargetBranch (keys m)) = false).
Proof.
  intros (Hauto & Hfav & Hclose & Hselect). split; intros Hmode;
    rewrite Hmode in *; simpl in *.
  - split; [apply disabled_never_matches, Hauto|].
    eapply Forall_impl; [exact Hfav|]. intros b Hb.
    apply disabled_never_matches, Hb.
  - split; apply disabled_never_matches; assumption.
Qed.

Lemma consistent_after_change (ext : External) (visible : bool) (m : BranchTable) :
  bindings_consistent (changeBranchSelectionVisibility ext visible m).
Proof.
  unfold bindings_consistent, changeBranchSelectionVisibility. simpl.
  rewrite !negb_involutive. repeat split.
  apply List.Forall_map, Forall_forall. intros b _. simpl.
  apply negb_involutive.
Qed.

Lemma other_mode_never_matches_witness :
  bubbles_key.Matches "1" (keys.MergeAutomatically (keys Sample.picking)) = false
  /\ Forall (fun b => bubbles_key.Matches "1" b = false)
       (keys.MergeFavourite (keys Sample.picking)).
Proof.
  apply (proj1 (other_mode_never_matches Sample.picking "1"
                  (consistent_after_change Sample.inert true Sample.loaded))).
  reflexivity.
Defined.

(** ** The shape of [Update] *)

(** A returned [Update] went through a returned switch. *)
Lemma Update_inv (ext : External) (m m' : BranchTable) (msg : Msg) (cmds : list Cmd) :
  Update ext m msg = Ok (m', cmds) ->
  exists (m1 : BranchTable) (issued : list (option Cmd)),
    dispatch ext m msg = Ok (m1, issued)
    /\ showMergeTargets m' = showMergeTargets m1
    /\ keys m' = keys m1
    /\ context m' = context m1
    /\ (showMergeTargets m1 = true ->
          flexTable m' = flexTable m1
          /\ branchesList m' = (list_Update ext (branchesList m1) msg).1
          /\ cmds = Batch (issued ++ [(list_Update ext (branchesList m1) msg).2]))
    /\ (showMergeTargets m1 = false ->
          branchesList m' = branchesList m1
          /\ flexTable m' = (table_Update ext (flexTable m1) msg).1
          /\ cmds = Batch (issued ++ [(table_Update ext (flexTable m1) msg).2])).
Proof.
  intros HU. destruct (dispatch ext m msg) as [[m1 issued]|] eqn:Hd.
  - destruct (Update_after_dispatch _ _ _ _ _ Hd) as (m2 & cmds2 & HU2 & Hrest).
    rewrite HU in HU2. injection HU2 as <- <-.
    exists m1, issued. split; [reflexivity | exact Hrest].
  - unfold Update in HU. rewrite Hd in HU. discriminate.
Qed.

(** The switch either keeps mode, bindings and context, or is a mode change. *)
Lemma dispatch_shape (ext : External) (m m1 : BranchTable) (msg : Msg)
    (issued : list (option Cmd)) :
  dispatch ext m msg = Ok (m1, issued) ->
  (showMergeTargets m1 = showMergeTargets m /\ keys m1 = keys m
   /\ context m1 = context m)
  \/ (exists visible : bool, m1 = changeBranchSelectionVisibility ext visible m).
Proof.
  destruct msg; simpl; intros Hd;
    try (injection Hd as <- <-; left; repeat split; reflexivity).
  unfold handleKey in Hd.
  repeat match type of Hd with
         | context [if ?c then _ else _] => destruct c eqn:?
         end;
    try (injection Hd as <- <-; first [left; repeat split; reflexivity
                                      | right; eexists; reflexivity]).
  - destruct (highlightedBranch m); simpl in Hd; [|discriminate].
    destruct (assert_branchItem (bubbles_list.SelectedItem (branchesList m)));
      simpl in Hd; [|discriminate].
    injection Hd as <- <-. right. eexists. reflexivity.
  - destruct (mergeFavouriteLoop m key 0 (keys.MergeFavourite (keys m)) []);
      simpl in Hd; [|discriminate].
    injection Hd as <- <-. left. repeat split; reflexivity.
Qed.

(** X11: the agreement between the bindings' flags and the mode is an
    invariant of [Update]: every mode change establishes it, and every
    message handled from a tab that has it leads to a tab that has it. *)
Theorem bindings_stay_consistent (ext : External) (m m' : BranchTable) (msg : Msg)
    (cmds : list Cmd) :
  bindings_consistent m ->
  Update ext m msg = Ok (m', cmds) ->
  bindings_consistent m'.
Proof.
  intros Hm HU.
  destruct (Update_inv _ _ _ _ _ HU) as (m1 & issued & Hd & Hmode & Hkeys & _).
  unfold bindings_consistent. rewrite Hmode, Hkeys.
  destruct (dispatch_shape _ _ _ _ _ Hd) as [(Hmode1 & Hkeys1 & _) | [visible ->]].
  - rewrite Hmode1, Hkeys1. exact Hm.
  - apply consistent_after_change.
Qed.

Lemma bindings_stay_consistent_witness :
  exists (m' : BranchTable) (cmds : list Cmd),
    Update Sample.inert Sample.picking (KeyMsg "enter") = Ok (m', cmds)
    /\ bindings_consistent m'.
Proof.
  eexists _, _. split; [reflexivity|].
  apply (bindings_stay_consistent Sample.inert Sample.picking _ (KeyMsg "enter")
           [CreateMergeRequestCmd "feature/x" "main" "fix bug"]).
  - apply (consistent_after_change Sample.inert true Sample.loaded).
  - reflexivity.
Defined.

(** X12: no message changes the context, the keys of the bindings that
    [FullHelp] lists, or their number: handling a message only ever flips
    the bindings' flags. *)
Theorem Update_keeps_configuration (ext : External) (m m' : BranchTable) (msg : Msg)
    (cmds : list Cmd) :
  Update ext m msg = Ok (m', cmds) ->
  context m' = context m
  /\ map bubbles_key.keys (FullHelp m') = map bubbles_key.keys (FullHelp m)
  /\ length (FullHelp m') = (3 + length (keys.MergeFavourite (keys m)))%nat.
Proof.
  intros HU.
  destruct (Update_inv _ _ _ _ _ HU) as (m1 & issued & Hd & _ & Hkeys & Hctx & _).
  unfold FullHelp. rewrite Hkeys, Hctx.
  destruct (dispatch_shape _ _ _ _ _ Hd) as [(_ & Hkeys1 & Hctx1) | [visible ->]].
  - rewrite Hkeys1, Hctx1. repeat split; reflexivity.
  - unfold changeBranchSelectionVisibility. simpl.
    rewrite map_map, length_map. repeat split; reflexivity.
Qed.

Lemma Update_keeps_configuration_witness :
  exists (m' : BranchTable) (cmds : list Cmd),
    Update Sample.inert Sample.loaded (KeyMsg "m") = Ok (m', cmds)
    /\ map bubbles_key.keys (FullHelp m')
       = [Some ["m"]; Some ["esc"]; Some ["enter"]; Some ["1"]; Some ["2"]].
Proof.
  eexists _, _. split; [reflexivity|].
  apply (Update_keeps_configuration Sample.inert Sample.loaded _ (KeyMsg "m") []).
  reflexivity.
Defined.

(** X13: a message that is not a key press never makes [Update] panic and
    never changes the mode, the key bindings or the context, and at most
    one command comes out of it (the one of the widget in front). *)
Theorem other_messages_keep_mode (ext : External) (m : BranchTable) (msg : Msg) :
  (forall k : string, msg <> KeyMsg k) ->
  exists (m' : BranchTable) (cmds : list Cmd),
    Update ext m msg = Ok (m', cmds)
    /\ showMergeTargets m' = showMergeTargets m
    /\ keys m' = keys m
    /\ context m' = context m
    /\ (length cmds <= 1)%nat.
Proof.
  intros Hmsg.
  assert (Hd : exists m1 : BranchTable,
             dispatch ext m msg = Ok (m1, [])
             /\ showMergeTargets m1 = showMergeTargets m
             /\ keys m1 = keys m /\ context m1 = context m).
  { destruct msg; simpl; try (eexists; repeat split; reflexivity).
    exfalso. eapply Hmsg. reflexivity. }
  destruct Hd as (m1 & Hd & Hmode & Hkeys & Hctx).
  destruct (Update_after_dispatch _ _ _ _ _ Hd)
    as (m' & cmds & HU & Hm & Hk & Hc & Hlist & Htable).
  exists m', cmds. split; [exact HU|]. split; [congruence|].
  split; [congruence|]. split; [congruence|].
  destruct (showMergeTargets m1).
  - destruct (Hlist eq_refl) as (_ & _ & ->).
    destruct (list_Update ext (branchesList m1) msg).2; simpl; lia.
  - destruct (Htable eq_refl) as (_ & _ & ->).
    destruct (table_Update ext (flexTable m1) msg).2; simpl; lia.
Qed.

Lemma other_messages_keep_mode_witness :
  exists (m' : BranchTable) (cmds : list Cmd),
    Update Sample.inert Sample.picking UpdatedContextMessage = Ok (m', cmds)
    /\ showMergeTargets m' = true
    /\ keys m' = keys Sample.picking
    /\ context m' = context Sample.picking
    /\ (length cmds <= 1)%nat.
Proof.
  apply (other_messages_keep_mode Sample.inert Sample.picking UpdatedContextMessage).
  discriminate.
Defined.

(** ** Key presses *)

(** X14: while the picker is shown and the user is typing a filter, no key
    press changes the mode or the bindings or issues a command of the tab:
    the key goes to the picker, and nothing else happens. *)
Theorem filtering_keys_go_to_picker (ext : External) (m : BranchTable) (k : string) :
  showMergeTargets m = true ->
  notFiltering m = false ->
  Update ext m (KeyMsg k)
  = Ok ({| branchesList := (list_Update ext (branchesList m) (KeyMsg k)).1;
           flexTable := flexTable m; keys := keys m; context := context m;
           showMergeTargets := true |},
        Batch [(list_Update ext (branchesList m) (KeyMsg k)).2]).
Proof.
  intros Hmode Hfilter.
  assert (Hd : dispatch ext m (KeyMsg k) = Ok (m, [])).
  { simpl. unfold handleKey. rewrite Hmode, Hfilter. simpl.
    rewrite mergeFavouriteLoop_picking by exact Hmode.
    repeat match goal with |- context [if ?c then _ else _] => destruct c end;
      reflexivity. }
  unfold Update. rewrite Hd. simpl. rewrite Hmode. simpl.
  destruct (list_Update ext (branchesList m) (KeyMsg k)). reflexivity.
Qed.

Lemma filtering_keys_go_to_picker_witness :
  Update Sample.inert Sample2.filtering (KeyMsg "enter")
  = Ok (Sample2.filtering, []).
Proof.
  apply (filtering_keys_go_to_picker Sample.inert Sample2.filtering "enter");
    reflexivity.
Defined.

(** X15: the mode after a key press is decided by the guards alone: from
    browsing the picker opens exactly when the key matches "merge
    automatically"; from the picker the tab returns to browsing exactly
    when the picker is not filtering and the key matches "close picker" or
    "confirm target" without matching "merge automatically". *)
Theorem mode_after_key (ext : External) (m m' : BranchTable) (k : string)
    (cmds : list Cmd) :
  Update ext m (KeyMsg k) = Ok (m', cmds) ->
  showMergeTargets m' = next_mode m k.
Proof.
  intros HU.
  destruct (Update_inv _ _ _ _ _ HU) as (m1 & issued & Hd & -> & _).
  simpl in Hd. unfold handleKey in Hd. unfold next_mode.
  destruct (bubbles_key.Matches k (keys.MergeAutomatically (keys m))).
  { destruct (showMergeTargets m) eqn:Hmode; simpl in Hd; injection Hd as <- _;
      [rewrite andb_false_r; simpl; exact Hmode | reflexivity]. }
  destruct (bubbles_key.Matches k (keys.CloseTargetBranchesList (keys m))).
  { destruct (showMergeTargets m) eqn:Hmode, (notFiltering m); simpl in Hd;
      injection Hd as <- _; simpl; auto. }
  destruct (bubbles_key.Matches k (keys.SelectTargetBranch (keys m))).
  { destruct (showMergeTargets m) eqn:Hmode, (notFiltering m); simpl in Hd;
      try (injection Hd as <- _; simpl; auto).
    destruct (highlightedBranch m); simpl in Hd; [|discriminate].
    destruct (assert_branchItem (bubbles_list.SelectedItem (branchesList m)));
      simpl in Hd; [|discriminate].
    injection Hd as <- _. reflexivity. }
  destruct (mergeFavouriteLoop m k 0 (keys.MergeFavourite (keys m)) []);
    simpl in Hd; [|discriminate].
  injection Hd as <- _.
  destruct (showMergeTargets m); [rewrite andb_false_r|]; reflexivity.
Qed.

Lemma mode_after_key_witness :
  exists (m' : BranchTable) (cmds : list Cmd),
    Update Sample.inert Sample.picking (KeyMsg "esc") = Ok (m', cmds)
    /\ showMergeTargets m' = false.
Proof.
  eexists _, _. split; [reflexivity|].
  apply (mode_after_key Sample.inert Sample.picking _ "esc" []). reflexivity.
Defined.

(** The favourite loop while browsing, when the context has a favourite
    branch for every binding still to be visited. *)
Lemma mergeFavouriteLoop_all (m : BranchTable) (k : string)
    (sourceBranch : gitlab.Branch) :
  showMergeTargets m = false ->
  highlightedBranch m = Ok sourceBranch ->
  forall (bindings : list bubbles_key.Binding) (i : Z) (cmds : list (option Cmd))
         (favourites : list string),
    0 <= i ->
    drop (Z.to_nat i) (context.FavouriteBranches (context m)) = favourites ->
    (length bindings <= length favourites)%nat ->
    mergeFavouriteLoop m k i bindings cmds
    = Ok (cmds ++ map (fun bf : bubbles_key.Binding * string =>
                         Some (CreateMergeRequestCmd (gitlab.Name sourceBranch) bf.2
                                 (gitlab.Message (gitlab.Commit_ sourceBranch))))
                    (List.filter
                       (fun bf : bubbles_key.Binding * string =>
                          bubbles_key.Matches k bf.1)
                       (combine bindings favourites)))%list.
Proof.
  intros Hmode Hsrc.
  induction bindings as [|b rest IH]; intros i cmds favourites Hi Hdrop Hlen; simpl.
  - rewrite app_nil_r. reflexivity.
  - destruct favourites as [|f frest]; [simpl in Hlen; lia|].
    assert (Hf : context.FavouriteBranches (context m) !! Z.to_nat i = Some f).
    { pose proof (lookup_drop (context.FavouriteBranches (context m))
                    (Z.to_nat i) 0) as Hl.
      rewrite Hdrop, Nat.add_0_r in Hl. symmetry. exact Hl. }
    assert (Hnext : drop (Z.to_nat (i + 1)) (context.FavouriteBranches (context m))
                    = frest).
    { replace (Z.to_nat (i + 1)) with (Z.to_nat i + 1)%nat by lia.
      rewrite <- drop_drop, Hdrop. reflexivity. }
    simpl in Hlen. rewrite Hmode. simpl.
    destruct (bubbles_key.Matches k b); simpl.
    + rewrite Hsrc. simpl. unfold go_index.
      destruct (Z.ltb_spec i 0); [lia|]. rewrite Hf. simpl.
      rewrite (IH (i + 1) _ frest) by (try assumption; lia).
      rewrite <- app_assoc. reflexivity.
    + apply IH; try assumption; lia.
Qed.

Lemma Batch_issued (issued : list Cmd) (rest : list (option Cmd)) :
  Batch (map Some issued ++ rest) = (issued ++ Batch rest)%list.
Proof.
  induction issued as [|c cs IH]; [reflexivity|].
  unfold Batch in *. simpl. f_equal. exact IH.
Qed.

(** X16: while browsing with a branch highlighted, a key press that
    matches none of the three fixed bindings issues one creation command
    for every favourite binding the key matches, in binding order, from
    the highlighted branch to the favourite at the binding's position and
    with the branch's last commit message as title; the tab stays as it
    is apart from what the table makes of the key. *)
Theorem favourites_issue_requests (ext : External) (m : BranchTable) (k : string)
    (sourceBranch : gitlab.Branch) :
  showMergeTargets m = false ->
  bubbles_key.Matches k (keys.MergeAutomatically (keys m)) = false ->
  bubbles_key.Matches k (keys.CloseTargetBranchesList (keys m)) = false ->
  bubbles_key.Matches k (keys.SelectTargetBranch (keys m)) = false ->
  highlightedBranch m = Ok sourceBranch ->
  (length (keys.MergeFavourite (keys m))
   <= length (context.FavouriteBranches (context m)))%nat ->
  Update ext m (KeyMsg k)
  = Ok ({| branchesList := branchesList m;
           flexTable := (table_Update ext (flexTable m) (KeyMsg k)).1;
           keys := keys m; context := context m; showMergeTargets := false |},
        (favourite_requests m k sourceBranch
           ++ Batch [(table_Update ext (flexTable m) (KeyMsg k)).2])%list).
Proof.
  intros Hmode Hauto Hclose Hselect Hsrc Hlen.
  unfold Update. simpl. unfold handleKey. rewrite Hauto, Hclose, Hselect.
  rewrite (mergeFavouriteLoop_all m k sourceBranch Hmode Hsrc _ 0 []
             (context.FavouriteBranches (context m)))
    by (try reflexivity; try lia; exact Hlen).
  simpl. rewrite Hmode. simpl.
  destruct (table_Update ext (flexTable m) (KeyMsg k)) as [t cmd]. simpl.
  change (match cmd with Some y => [y] | None => [] end) with (Batch [cmd]).
  unfold favourite_requests. rewrite <- Batch_issued, map_map. reflexivity.
Qed.

(** Two favourite bindings sharing the key "f": one press, two requests. *)
Lemma favourites_issue_requests_witness :
  Update Sample.inert Sample2.shared (KeyMsg "f")
  = Ok (Sample2.shared,
        [CreateMergeRequestCmd "feature/x" "main" "fix bug";
         CreateMergeRequestCmd "feature/x" "develop" "fix bug"]).
Proof.
  apply (favourites_issue_requests Sample.inert Sample2.shared "f"
           (Sample.branch "feature/x" false)); reflexivity.
Defined.

(** X17: while browsing with a branch highlighted, a key press that
    reaches a matching favourite binding whose position lies beyond the
    context's favourite branches makes [Update] panic on the index. *)
Theorem favourite_beyond_list_panics (ext : External) (m : BranchTable) (k : string)
    (sourceBranch : gitlab.Branch)
    (before after : list bubbles_key.Binding) (b : bubbles_key.Binding) :
  showMergeTargets m = false ->
  bubbles_key.Matches k (keys.MergeAutomatically (keys m)) = false ->
  bubbles_key.Matches k (keys.CloseTargetBranchesList (keys m)) = false ->
  bubbles_key.Matches k (keys.SelectTargetBranch (keys m)) = false ->
  highlightedBranch m = Ok sourceBranch ->
  keys.MergeFavourite (keys m) = (before ++ b :: after)%list ->
  bubbles_key.Matches k b = true ->
  (length (context.FavouriteBranches (context m)) <= length before)%nat ->
  Update ext m (KeyMsg k) = Panic.
Proof.
  intros Hmode Hauto Hclose Hselect Hsrc Hfavs Hb Hshort.
  assert (Hloop : forall (pre : list bubbles_key.Binding) (i : Z)
                         (cmds : list (option Cmd)),
             0 <= i ->
             (length (context.FavouriteBranches (context m))
              <= Z.to_nat i + length pre)%nat ->
             mergeFavouriteLoop m k i (pre ++ b :: after)%list cmds = Panic).
  { induction pre as [|b0 pre IH]; intros i cmds Hi Hle; simpl.
    - rewrite Hb, Hmode, Hsrc. simpl. unfold go_index.
      destruct (Z.ltb_spec i 0); [lia|].
      rewrite lookup_ge_None_2 by (simpl in Hle; lia). reflexivity.
    - rewrite Hmode. simpl.
      destruct (bubbles_key.Matches k b0); simpl.
      + rewrite Hsrc. simpl. unfold go_index.
        destruct (Z.ltb_spec i 0); [lia|].
        destruct (context.FavouriteBranches (context m) !! Z.to_nat i);
          simpl; [|reflexivity].
        apply IH; [lia | simpl in Hle; lia].
      + apply IH; [lia | simpl in Hle; lia]. }
  unfold Update. simpl. unfold handleKey.
  rewrite Hauto, Hclose, Hselect, Hfavs, Hloop by (simpl; lia). reflexivity.
Qed.

Lemma favourite_beyond_list_panics_witness :
  Update Sample.inert Sample2.shrunk (KeyMsg "2") = Panic.
Proof.
  apply (favourite_beyond_list_panics Sample.inert Sample2.shrunk "2"
           (Sample.branch "feature/x" false)
           [Sample.binding "1" true] [] (Sample.binding "2" true));
    reflexivity.
Defined.

(** X19: when [Update] may panic and when it may not: with a branch
    highlighted, a target selected whenever the picker is shown, and a
    favourite branch for every favourite binding whenever it is not,
    [Update] returns for every message. *)
Theorem Update_returns (ext : External) (m : BranchTable) (msg : Msg)
    (sourceBranch : gitlab.Branch) :
  highlightedBranch m = Ok sourceBranch ->
  (showMergeTargets m = true ->
   bubbles_list.SelectedItem (branchesList m) <> None) ->
  (showMergeTargets m = false ->
   (length (keys.MergeFavourite (keys m))
    <= length (context.FavouriteBranches (context m)))%nat) ->
  exists (m' : BranchTable) (cmds : list Cmd), Update ext m msg = Ok (m', cmds).
Proof.
  intros Hsrc Hselected Hfavs.
  assert (Hd : exists (m1 : BranchTable) (issued : list (option Cmd)),
             dispatch ext m msg = Ok (m1, issued)).
  { destruct msg; simpl; try (eexists _, _; reflexivity).
    unfold handleKey.
    repeat match goal with
           | |- context [if ?c then _ else _] =>
               lazymatch c with
               | context [if _ then _ else _] => fail
               | _ => destruct c eqn:?
               end
           end; try (eexists _, _; reflexivity).
    - rewrite Hsrc. simpl.
      destruct (bubbles_list.SelectedItem (branchesList m)) as [item|] eqn:Hitem.
      + simpl. eexists _, _. reflexivity.
      + exfalso. apply Hselected; [|reflexivity].
        match goal with H : _ && _ = true |- _ => apply andb_prop in H; apply H end.
    - destruct (showMergeTargets m) eqn:Hmode.
      + rewrite mergeFavouriteLoop_picking by exact Hmode.
        simpl. eexists _, _. reflexivity.
      + rewrite (mergeFavouriteLoop_all m key sourceBranch Hmode Hsrc _ 0 []
                   (context.FavouriteBranches (context m)))
          by (try reflexivity; try lia; apply Hfavs; reflexivity).
        simpl. eexists _, _. reflexivity. }
  destruct Hd as (m1 & issued & Hd).
  destruct (Update_after_dispatch _ _ _ _ _ Hd) as (m' & cmds & HU & _).
  exists m', cmds. exact HU.
Qed.

Lemma Update_returns_witness :
  exists (m' : BranchTable) (cmds : list Cmd),
    Update Sample.inert Sample.picking (KeyMsg "enter") = Ok (m', cmds).
Proof.
  apply (Update_returns Sample.inert Sample.picking (KeyMsg "enter")
           (Sample.branch "feature/x" false)).
  - reflexivity.
  - discriminate.
  - discriminate.
Defined.

(** ** Loading branches *)

(** X20: the branch a row carries comes back out of it: after a non-empty
    branch list is applied the highlighted branch is the list's first
    branch, and after an empty list is applied there is none to read (the
    type assertion panics). *)
Theorem first_branch_highlighted (ext : External) (m : BranchTable) :
  (forall t bs, (table_Update ext t (UserBranches bs)).1 = t) ->
  (forall (b : gitlab.Branch) (rest : list gitlab.Branch),
     exists (m' : BranchTable) (cmds : list Cmd),
       Update ext m (UserBranches (b :: rest)) = Ok (m', cmds)
       /\ highlightedBranch m' = Ok b)
  /\ (exists (m' : BranchTable) (cmds : list Cmd),
        Update ext m (UserBranches []) = Ok (m', cmds)
        /\ highlightedBranch m' = Panic).
Proof.
  intros Htable. split.
  - intros b rest.
    destruct (Update_UserBranches ext m (b :: rest) Htable)
      as (m' & cmds & HU & _ & Hrows & _ & Hcursor).
    exists m', cmds. split; [exact HU|].
    apply (highlightedBranch_row ext). rewrite Hrows, Hcursor. reflexivity.
  - destruct (Update_UserBranches ext m [] Htable)
      as (m' & cmds & HU & _ & Hrows & _).
    exists m', cmds. split; [exact HU|].
    apply highlightedBranch_empty. exact Hrows.
Qed.

Lemma first_branch_highlighted_witness :
  exists (m' : BranchTable) (cmds : list Cmd),
    Update Sample.inert Sample.fresh
      (UserBranches [Sample.branch "user/a" false; Sample.branch "user/b" false])
      = Ok (m', cmds)
    /\ highlightedBranch m' = Ok (Sample.branch "user/a" false).
Proof.
  apply (proj1 (first_branch_highlighted Sample.inert Sample.fresh
                  (fun t bs => eq_refl))).
Defined.

(** X21: start-up: a new tab is browsing, with no rows and no items;
    [Init] issues the one command that fetches the branches matching the
    configured prefix and nothing else, and once its result is handled
    the table has one row per fetched branch, in the client's order, while
    the tab is still browsing and the picker still empty. *)
Theorem startup_loads_user_branches (ext : External)
    (BranchHelp : list string -> keys.BranchKeyMap) (ctx : context.AppContext) :
  (forall t bs, (table_Update ext t (UserBranches bs)).1 = t) ->
  let m0 := NewBranchTable BranchHelp ctx in
  let fetched :=
    gitlab.FetchBranchesWithPattern (context.GitlabClient ctx)
      [context.UserBranchPrefix ctx] in
  showMergeTargets m0 = false
  /\ bubble_table.rows (flexTable m0) = []
  /\ Init = [ListUsersBranchesCmd]
  /\ run ext m0 ListUsersBranchesCmd
     = Some {| logged := []; returned := Ok (Some (UserBranches fetched)) |}
  /\ exists (m1 : BranchTable) (cmds : list Cmd),
       Update ext m0 (UserBranches fetched) = Ok (m1, cmds)
       /\ showMergeTargets m1 = false
       /\ bubble_table.rows (flexTable m1) = map (row_of ext) fetched
       /\ bubbles_list.items (branchesList m1) = []
       /\ keys m1 = BranchHelp (context.FavouriteBranches ctx).
Proof.
  intros Htable m0 fetched.
  split; [reflexivity|].
  split; [unfold m0, NewBranchTable; simpl;
          rewrite (proj1 (WithPageSize_keeps _ _)); reflexivity|].
  split; [reflexivity|]. split; [reflexivity|].
  destruct (Update_after_dispatch ext m0 _ (UserBranches fetched) [] eq_refl)
    as (m1 & cmds & HU & Hmode & Hkeys & _ & _ & Hbrowse).
  destruct (Hbrowse eq_refl) as (Hlist & Ht & _).
  rewrite Htable in Ht.
  exists m1, cmds. split; [exact HU|]. split; [exact Hmode|].
  split; [|split; [rewrite Hlist; reflexivity | exact Hkeys]].
  rewrite Ht. simpl. rewrite rows_WithRows, userBranchRows_acc. reflexivity.
Qed.

Lemma startup_loads_user_branches_witness :
  exists (m1 : BranchTable) (cmds : list Cmd),
    Update Sample.inert (NewBranchTable (fun _ => Sample.browsingKeys) Sample2.startContext)
      (UserBranches [Sample.branch "user/a" false; Sample.branch "user/b" false])
      = Ok (m1, cmds)
    /\ showMergeTargets m1 = false
    /\ bubble_table.rows (flexTable m1)
       = map (row_of Sample.inert)
           [Sample.branch "user/a" false; Sample.branch "user/b" false]
    /\ bubbles_list.items (branchesList m1) = []
    /\ keys m1 = Sample.browsingKeys.
Proof.
  apply (proj2 (proj2 (proj2 (proj2
           (startup_loads_user_branches Sample.inert
              (fun _ => Sample.browsingKeys) Sample2.startContext
              (fun t bs => eq_refl)))))).
Defined.

(** ** Confirming a target *)

(** X18: while the picker is shown and not filtering, with a branch
    highlighted and a target selected, the "confirm target" key issues
    exactly one creation command, from the highlighted branch to the
    selected target with the branch's last commit message as title, and
    changes the mode to browsing; the key press itself is then handed to
    the branch table, not to the picker. *)
Theorem confirm_creates_request (ext : External) (m : BranchTable) (k : string)
    (sourceBranch : gitlab.Branch) (targetBranch : branchItem) :
  showMergeTargets m = true ->
  notFiltering m = true ->
  bubbles_key.Matches k (keys.MergeAutomatically (keys m)) = false ->
  bubbles_key.Matches k (keys.CloseTargetBranchesList (keys m)) = false ->
  bubbles_key.Matches k (keys.SelectTargetBranch (keys m)) = true ->
  highlightedBranch m = Ok sourceBranch ->
  bubbles_list.SelectedItem (branchesList m) = Some targetBranch ->
  let closed := changeBranchSelectionVisibility ext false m in
  Update ext m (KeyMsg k)
  = Ok ({| branchesList := branchesList closed;
           flexTable := (table_Update ext (flexTable closed) (KeyMsg k)).1;
           keys := keys closed; context := context m; showMergeTargets := false |},
        CreateMergeRequestCmd (gitlab.Name sourceBranch) (name targetBranch)
          (gitlab.Message (gitlab.Commit_ sourceBranch))
          :: Batch [(table_Update ext (flexTable closed) (KeyMsg k)).2]).
Proof.
  intros Hmode Hfilter Hauto Hclose Hselect Hsrc Htgt closed.
  assert (Hd : dispatch ext m (KeyMsg k)
               = Ok (closed,
                     [Some (CreateMergeRequestCmd (gitlab.Name sourceBranch)
                              (name targetBranch)
                              (gitlab.Message (gitlab.Commit_ sourceBranch)))])).
  { simpl. unfold handleKey.
    rewrite Hauto, Hclose, Hselect, Hmode, Hfilter, Hsrc, Htgt. reflexivity. }
  unfold Update. rewrite Hd. unfold rbind.
  change (showMergeTargets closed) with false. cbv beta iota. simpl negb. cbv iota.
  destruct (table_Update ext (flexTable closed) (KeyMsg k)) as [t cmd].
  reflexivity.
Qed.

Lemma confirm_creates_request_witness :
  exists m' : BranchTable,
    Update Sample.inert Sample.picking (KeyMsg "enter")
    = Ok (m', [CreateMergeRequestCmd "feature/x" "main" "fix bug"])
    /\ showMergeTargets m' = false.
Proof.
  eexists. split.
  - apply (confirm_creates_request Sample.inert Sample.picking "enter"
             (Sample.branch "feature/x" false) {| name := "main" |});
      reflexivity.
  - reflexivity.
Defined.
